(** * Nanoleaf integration: onboarding and command dispatch

    A shallow embedding of the parts of [uc_intg_nanoleaf] that decide the
    properties stated about it: the device capability model ([config.py],
    [client.py]), the command router and its throttle guard ([remote.py]) and
    the setup flow ([setup.py]).

    Conventions.
    - Python [str] values are [string]s; the helper functions of [str] that
      the code calls are written once over [list A] (section [PyStr]) and
      used at [A := ascii].
    - Dictionaries read with [.get(key, default)] are records whose fields
      are [option]s (an absent key is [None]).
    - [time.time()] is a rational number of seconds, and so are the
      cool-downs 0.1 and 0.3 and the pairing deadline.
    - The HTTP client is an oracle: a function from the calls made so far
      and the present call to what the call returns or raises.
    - [asyncio.gather] runs its tasks one after the other, in the order of
      the list; no task of a batch reads what another one writes (each
      writes the state of its own device only).  [asyncio.wait_for] is
      decided by the time after which each awaited attempt resolves. *)

From Stdlib Require Import QArith Qminmax Lqa.
From Stdlib Require Import Ascii String DecimalString.
From stdpp Require Import base option list sorting gmap strings.

Set Default Proof Using "Type".

(** ** The methods of Python's [str] that the integration uses *)

Section PyStr.
Context {A : Type} `{EqDecision A}.

(** [s.startswith(p)] *)
Fixpoint startswith (p s : list A) : bool :=
  match p, s with
  | [], _ => true
  | _ :: _, [] => false
  | a :: p', b :: s' => bool_decide (a = b) && startswith p' s'
  end.

(** [p in s] *)
Fixpoint contains (p s : list A) : bool :=
  startswith p s ||
  match s with
  | [] => false
  | _ :: s' => contains p s'
  end.

(** [s.replace(old, new)] for a non-empty [old]: the occurrences of [old]
    are found from the left and do not overlap.  [skip] counts the
    characters of an occurrence that are still to be passed over. *)
Fixpoint replace_from (old new : list A) (skip : nat) (s : list A) : list A :=
  match s with
  | [] => []
  | c :: s' =>
      match skip with
      | S k => replace_from old new k s'
      | O =>
          if startswith old s
          then new ++ replace_from old new (length old - 1) s'
          else c :: replace_from old new 0 s'
      end
  end.

Definition replace (old new s : list A) : list A := replace_from old new 0 s.

(** [s.lstrip(chars)], [s.rstrip(chars)], [s.strip(chars)] *)
Fixpoint lstrip (chars s : list A) : list A :=
  match s with
  | [] => []
  | c :: s' => if bool_decide (c ∈ chars) then lstrip chars s' else s
  end.

Definition rstrip (chars s : list A) : list A :=
  reverse (lstrip chars (reverse s)).

Definition strip (chars s : list A) : list A :=
  rstrip chars (lstrip chars s).

(** *** [_clean_command_name], over any character table

    [to_upper c] is the upper-case form of one character (Python's full case
    mapping may give several characters), [is_alnum] is [str.isalnum] on one
    character and [us] is the underscore. *)
Context (to_upper : A → list A) (is_alnum : A → bool) (us : A).

Definition str_upper (s : list A) : list A := s ≫= to_upper.

(** [while "__" in cleaned: cleaned = cleaned.replace("__", "_")] *)
Fixpoint while_collapse (fuel : nat) (cleaned : list A) : list A :=
  match fuel with
  | O => cleaned
  | S fuel' =>
      if contains [us; us] cleaned
      then while_collapse fuel' (replace [us; us] [us] cleaned)
      else cleaned
  end.

Definition clean_chars (name : list A) : list A :=
  let cleaned := (λ c, if is_alnum c then c else us) <$> str_upper name in
  let cleaned := while_collapse (length cleaned) cleaned in
  strip [us] cleaned.
End PyStr.

(** *** The ASCII character table *)

Definition ascii_in_range (lo hi : N) (c : ascii) : bool :=
  (lo <=? N_of_ascii c)%N && (N_of_ascii c <=? hi)%N.

Definition ascii_isdigit (c : ascii) : bool := ascii_in_range 48 57 c.
Definition ascii_isupper (c : ascii) : bool := ascii_in_range 65 90 c.
Definition ascii_islower (c : ascii) : bool := ascii_in_range 97 122 c.

Definition ascii_isalnum (c : ascii) : bool :=
  ascii_isdigit c || ascii_isupper c || ascii_islower c.

Definition ascii_upper (c : ascii) : ascii :=
  if ascii_islower c then ascii_of_N (N_of_ascii c - 32) else c.

(** *** [str] as [string] *)

Definition chars (s : string) : list ascii := list_ascii_of_string s.
Definition str (l : list ascii) : string := string_of_list_ascii l.

Definition str_startswith (s p : string) : bool := startswith (chars p) (chars s).
Definition str_contains (p s : string) : bool := contains (chars p) (chars s).
Definition str_replace (s old new : string) : string :=
  str (replace (chars old) (chars new) (chars s)).
Definition upper (s : string) : string := str (ascii_upper <$> chars s).

(** [sep.join(parts)]-free splitting: [s.split(sep)] for a one-character
    separator. *)
Fixpoint split_on (sep : ascii) (s : list ascii) : list (list ascii) :=
  match s with
  | [] => [[]]
  | c :: s' =>
      if bool_decide (c = sep) then [] :: split_on sep s'
      else match split_on sep s' with
           | [] => [[c]]
           | part :: parts => (c :: part) :: parts
           end
  end.

Definition str_split (s : string) (sep : ascii) : list string :=
  str <$> split_on sep (chars s).

(** [part.isdigit()] and [int(part)] on ASCII decimal digits. *)
Definition str_isdigit (s : string) : bool :=
  negb (bool_decide (s = "")) && forallb ascii_isdigit (chars s).

Definition digit_value (c : ascii) : Z := Z.of_N (N_of_ascii c - 48).

Definition int_of_digits (s : string) : Z :=
  foldl (λ acc c, 10 * acc + digit_value c)%Z 0%Z (chars s).

(** [str(n)] for an integer, as the f-strings of the code render it. *)
Definition str_of_Z (n : Z) : string := NilZero.string_of_int (Z.to_int n).
Definition str_of_nat (n : nat) : string := NilZero.string_of_uint (Nat.to_uint n).

(** Truth value of a string and of an optional string ([None] and [""] are
    false). *)
Definition truthy (s : option string) : bool :=
  match s with
  | Some s => negb (bool_decide (s = ""))
  | None => false
  end.

(** ** What the code calls and what it may get back *)

(** The outcome of a call: a value, or an exception (any [Exception]). *)
Inductive outcome (T : Type) : Type :=
| Ret (v : T)
| Raise.
Arguments Ret {T} v.
Arguments Raise {T}.

(** Python dictionaries whose order matters: the pairs in insertion order.
    [d[k] = v] keeps the place of a key that is already there. *)
Fixpoint dict_set {V : Type} (k : string) (v : V) (d : list (string * V))
  : list (string * V) :=
  match d with
  | [] => [(k, v)]
  | (k', v') :: d' =>
      if bool_decide (k' = k) then (k, v) :: d' else (k', v') :: dict_set k v d'
  end.

Fixpoint dict_get {V : Type} (k : string) (d : list (string * V)) : option V :=
  match d with
  | [] => None
  | (k', v') :: d' => if bool_decide (k' = k) then Some v' else dict_get k d'
  end.

(** [key in d] for a dictionary read as a record of options. *)
Definition has_key {T : Type} (field : option T) : bool :=
  match field with
  | Some _ => true
  | None => false
  end.

(** ** The attribute bag a device returns ([GET /api/v1/<token>]) *)

Module Api.

(** [{"value": v}], the shape of the entries of ["state"]. *)
Record valued (T : Type) : Type := { value : option T }.
Arguments value {T} _.

Record state_bag : Type := {
  on : option (valued bool);
  brightness : option (valued Z);
  hue : option (valued Z);
  sat : option (valued Z);
  ct : option (valued Z);
  colorMode : option string;
}.

Record effects_bag : Type := {
  select : option string;
  effectsList : option (list string);
}.

Record layout_bag : Type := {
  numPanels : option Z;
  positionData : option (list (Z * Z * Z));
}.

Record panel_layout_bag : Type := { layout : option layout_bag }.

(** The keys the code reads; [other_keys] are the keys it does not read
    (they only matter for the truth value of the dictionary). *)
Record device_info : Type := {
  name : option string;
  model : option string;
  serialNo : option string;
  firmwareVersion : option string;
  manufacturer : option string;
  state : option state_bag;
  effects : option effects_bag;
  panelLayout : option panel_layout_bag;
  other_keys : list string;
}.

(** [bool(device_info)]: a dictionary is true when it has a key. *)
Definition nonempty (b : device_info) : bool :=
  has_key (name b) || has_key (model b) || has_key (serialNo b)
  || has_key (firmwareVersion b) || has_key (manufacturer b)
  || has_key (state b) || has_key (effects b) || has_key (panelLayout b)
  || negb (bool_decide (other_keys b = [])).

(** [device_info.get("effects", {}).get("effectsList", [])] *)
Definition effects_list_of (b : device_info) : list string :=
  match effects b with
  | Some e => default [] (effectsList e)
  | None => []
  end.

Definition current_effect_of (b : device_info) : string :=
  match effects b with
  | Some e => default "" (select e)
  | None => ""
  end.

(** [device_info.get("panelLayout", {}).get("layout", {})] *)
Definition layout_of (b : device_info) : option layout_bag :=
  match panelLayout b with
  | Some p => layout p
  | None => None
  end.

Definition num_panels_of (b : device_info) : Z :=
  match layout_of b with
  | Some l => default 0%Z (numPanels l)
  | None => 0%Z
  end.

End Api.

(** ** [config.py]: the stored device records *)

Module Config.

(** One entry of [config.devices]; the router reads it with
    [.get(key, default)], so every key may be absent. *)
Record device_config : Type := {
  ip_address : option string;
  port : option Z;
  auth_token : option string;
  name : option string;
  model : option string;
  serial_no : option string;
  firmware_version : option string;
  manufacturer : option string;
  effects : option Api.effects_bag;
  supports_color : option bool;
  supports_brightness : option bool;
  supports_effects : option bool;
  supports_color_temp : option bool;
  supports_layout : option bool;
  effects_list : option (list string);
  current_effect : option string;
  panel_count : option Z;
  device_type : option string;
  sku : option string;
}.

(** [config.devices]: device id to record, in insertion order. *)
Abbreviation devices := (list (string * device_config)).

(** [NanoleafConfig._determine_device_type] *)
Definition _determine_device_type (device_info : Api.device_info) : string :=
  let model := upper (default "" (Api.model device_info)) in
  let name := upper (default "" (Api.name device_info)) in
  if str_contains "NL22" model || str_contains "NL42" model then "light_panels"
  else if str_contains "NL29" model then "canvas"
  else if str_contains "NL52" model || str_contains "NL59" model then "shapes"
  else if str_contains "NL64" model then "elements"
  else if str_contains "NL69" model then "lines"
  else if str_contains "ELEMENTS" name then "elements"
  else if str_contains "CANVAS" name then "canvas"
  else if str_contains "SHAPES" name then "shapes"
  else if str_contains "LINES" name then "lines"
  else if str_contains "STRIP" name then "strip"
  else "panels".

(** [NanoleafConfig._determine_sku] *)
Definition _determine_sku (device_info : Api.device_info) : string :=
  let model := default "Unknown" (Api.model device_info) in
  if negb (bool_decide (model = "")) && negb (bool_decide (model = "Unknown"))
  then model
  else upper (_determine_device_type device_info).

(** The key under which [add_device] files a device. *)
Definition device_id_of (ip_address : string) (port : Z) : string :=
  str_replace ip_address "." "_" +:+ "_" +:+ str_of_Z port.

(** The record [add_device] builds. *)
Definition new_device_config (ip_address auth_token : string)
    (device_info : Api.device_info) (port : Z) : device_config :=
  let device_id := device_id_of ip_address port in
  {| ip_address := Some ip_address;
     port := Some port;
     auth_token := Some auth_token;
     name := Some (default ("Nanoleaf " +:+ device_id) (Api.name device_info));
     model := Some (default "Unknown" (Api.model device_info));
     serial_no := Some (default "" (Api.serialNo device_info));
     firmware_version := Some (default "" (Api.firmwareVersion device_info));
     manufacturer := Some (default "Nanoleaf" (Api.manufacturer device_info));
     effects := Some (default {| Api.select := None; Api.effectsList := None |}
                        (Api.effects device_info));
     supports_color := Some true;
     supports_brightness := Some true;
     supports_effects :=
       Some (0 <? length (Api.effects_list_of device_info))%nat;
     supports_color_temp := Some true;
     supports_layout := Some (has_key (Api.panelLayout device_info));
     effects_list := Some (Api.effects_list_of device_info);
     current_effect := Some (Api.current_effect_of device_info);
     panel_count := Some (Api.num_panels_of device_info);
     device_type := Some (_determine_device_type device_info);
     sku := Some (_determine_sku device_info) |}.

(** [NanoleafConfig.add_device]; the port is 16021 unless given. *)
Definition add_device (ip_address auth_token : string)
    (device_info : Api.device_info) (port : Z) (config : devices) : devices :=
  dict_set (device_id_of ip_address port)
           (new_device_config ip_address auth_token device_info port) config.

(** [NanoleafConfig.clear] *)
Definition clear (config : devices) : devices := [].

(** [bool(device_config)] *)
Definition nonempty (c : device_config) : bool :=
  has_key (ip_address c) || has_key (port c) || has_key (auth_token c)
  || has_key (name c) || has_key (model c) || has_key (serial_no c)
  || has_key (firmware_version c) || has_key (manufacturer c)
  || has_key (effects c) || has_key (supports_color c)
  || has_key (supports_brightness c) || has_key (supports_effects c)
  || has_key (supports_color_temp c) || has_key (supports_layout c)
  || has_key (effects_list c) || has_key (current_effect c)
  || has_key (panel_count c) || has_key (device_type c) || has_key (sku c).

(** The keys of a stored record that [NanoleafDevice.__init__] does not
    look up. *)
Definition key_if {T : Type} (key : string) (field : option T) : list string :=
  if has_key field then [key] else [].

Definition keys_not_read_by_device (c : device_config) : list string :=
  key_if "ip_address" (ip_address c) ++ key_if "port" (port c)
  ++ key_if "auth_token" (auth_token c) ++ key_if "serial_no" (serial_no c)
  ++ key_if "firmware_version" (firmware_version c)
  ++ key_if "supports_color" (supports_color c)
  ++ key_if "supports_brightness" (supports_brightness c)
  ++ key_if "supports_effects" (supports_effects c)
  ++ key_if "supports_color_temp" (supports_color_temp c)
  ++ key_if "supports_layout" (supports_layout c)
  ++ key_if "effects_list" (effects_list c)
  ++ key_if "current_effect" (current_effect c)
  ++ key_if "panel_count" (panel_count c)
  ++ key_if "device_type" (device_type c) ++ key_if "sku" (sku c).

End Config.

(** ** [client.py]: the device descriptor *)

Module Client.

(** [NanoleafDevice].  The attributes that [__init__] sets only when it is
    given an attribute bag are options: [None] is an attribute that was
    never assigned (reading it raises [AttributeError]). *)
Record NanoleafDevice : Type := {
  ip_address : string;
  auth_token : option string;
  port : Z;
  name : string;
  model : string;
  serial_no : option string;
  firmware_version : option string;
  manufacturer : option string;
  is_on : option bool;
  brightness : option Z;
  hue : option Z;
  saturation : option Z;
  color_temp : option Z;
  color_mode : option string;
  current_effect : option string;
  effects_list : list string;
  panel_count : Z;
  panel_layout : option (list (Z * Z * Z));
  supports_color : bool;
  supports_brightness : bool;
  supports_effects : bool;
  supports_color_temp : bool;
  supports_layout : bool;
  device_type : string;
  sku : string;
}.

(** [NanoleafDevice._determine_device_type], on the name and the model that
    [__init__] has just stored. *)
Definition _determine_device_type (name model : string) : string :=
  let model := upper model in
  if str_contains "NL22" model || str_contains "NL42" model then "light_panels"
  else if str_contains "NL29" model then "canvas"
  else if str_contains "NL52" model || str_contains "NL59" model then "shapes"
  else if str_contains "NL64" model then "elements"
  else if str_contains "NL69" model then "lines"
  else if str_contains "STRIP" (upper name) then "strip"
  else "panels".

(** [NanoleafDevice._determine_sku] *)
Definition _determine_sku (model device_type : string) : string :=
  if negb (bool_decide (model = "")) && negb (bool_decide (model = "Unknown"))
  then model
  else upper device_type.

(** [state.get(key, {}).get("value", default)] *)
Definition state_value {T : Type} (field : Api.state_bag → option (Api.valued T))
    (dflt : T) (device_info : Api.device_info) : T :=
  match Api.state device_info with
  | Some st =>
      match field st with
      | Some v => default dflt (Api.value v)
      | None => dflt
      end
  | None => dflt
  end.

(** The [else] branch of [__init__]: "default values for new devices". *)
Definition new_device_defaults (ip_address : string) (auth_token : option string)
  : NanoleafDevice :=
  {| ip_address := ip_address; auth_token := auth_token; port := 16021;
     name := "Nanoleaf " +:+ ip_address; model := "Unknown";
     serial_no := None; firmware_version := None; manufacturer := None;
     is_on := None; brightness := None; hue := None; saturation := None;
     color_temp := None; color_mode := None; current_effect := None;
     effects_list := []; panel_count := 0; panel_layout := None;
     supports_color := true; supports_brightness := true;
     supports_effects := true; supports_color_temp := true;
     supports_layout := true; device_type := "panels"; sku := "Unknown" |}.

(** [NanoleafDevice.__init__(ip_address, auth_token, device_info)]:
    [if device_info:] is false for [None] and for an empty dictionary. *)
Definition new_device (ip_address : string) (auth_token : option string)
    (device_info : option Api.device_info) : NanoleafDevice :=
  match device_info with
  | Some info =>
      if Api.nonempty info then
        let name := default ("Nanoleaf " +:+ ip_address) (Api.name info) in
        let model := default "Unknown" (Api.model info) in
        let effects_list := Api.effects_list_of info in
        let panel_layout :=
          match Api.layout_of info with
          | Some l => default [] (Api.positionData l)
          | None => []
          end in
        let device_type := _determine_device_type name model in
        {| ip_address := ip_address;
           auth_token := auth_token;
           port := 16021;
           name := name;
           model := model;
           serial_no := Some (default "" (Api.serialNo info));
           firmware_version := Some (default "" (Api.firmwareVersion info));
           manufacturer := Some (default "Nanoleaf" (Api.manufacturer info));
           is_on := Some (state_value Api.on false info);
           brightness := Some (state_value Api.brightness 100%Z info);
           hue := Some (state_value Api.hue 0%Z info);
           saturation := Some (state_value Api.sat 0%Z info);
           color_temp := Some (state_value Api.ct 4000%Z info);
           color_mode :=
             Some match Api.state info with
                  | Some st => default "effect" (Api.colorMode st)
                  | None => "effect"
                  end;
           current_effect := Some (Api.current_effect_of info);
           effects_list := effects_list;
           panel_count := Api.num_panels_of info;
           panel_layout := Some panel_layout;
           supports_color := true;
           supports_brightness := true;
           supports_effects := (0 <? length effects_list)%nat;
           supports_color_temp := true;
           supports_layout := (0 <? length panel_layout)%nat;
           device_type := device_type;
           sku := _determine_sku model device_type |}
      else
        new_device_defaults ip_address auth_token
  | None =>
      new_device_defaults ip_address auth_token
  end.

End Client.

(** ** [remote.py]: the command router *)

Module Remote.

(** [NanoleafRemote._clean_command_name] *)
Definition _clean_command_name (name : string) : string :=
  str (clean_chars (λ c, [ascii_upper c]) ascii_isalnum "_"%char (chars name)).

(** *** The command vocabulary *)

(** [device_info.get("name", f"Device_{device_id}")] *)
Definition device_name_of (device_id : string) (device_info : Config.device_config)
  : string :=
  default ("Device_" +:+ device_id) (Config.name device_info).

(** The effect commands of one device: [effects_list[:10]]. *)
Definition effect_commands (clean_name : string) (device_info : Config.device_config)
  : list string :=
  if default true (Config.supports_effects device_info) then
    (λ effect, clean_name +:+ "_EFFECT_" +:+ _clean_command_name effect)
      <$> take 10 (default [] (Config.effects_list device_info))
  else [].

(** What one turn of the loop over the devices appends to [commands]. *)
Definition device_commands (device_id : string) (device_info : Config.device_config)
  : list string :=
  let clean_name := _clean_command_name (device_name_of device_id device_info) in
  [clean_name +:+ "_ON"; clean_name +:+ "_OFF"; clean_name +:+ "_TOGGLE"]
  ++ (if default true (Config.supports_brightness device_info) then
        [clean_name +:+ "_BRIGHTNESS_UP"; clean_name +:+ "_BRIGHTNESS_DOWN";
         clean_name +:+ "_BRIGHTNESS_25"; clean_name +:+ "_BRIGHTNESS_50";
         clean_name +:+ "_BRIGHTNESS_75"; clean_name +:+ "_BRIGHTNESS_100"]
      else [])
  ++ (if default true (Config.supports_color device_info) then
        [clean_name +:+ "_COLOR_RED"; clean_name +:+ "_COLOR_GREEN";
         clean_name +:+ "_COLOR_BLUE"; clean_name +:+ "_COLOR_WHITE";
         clean_name +:+ "_COLOR_WARM"; clean_name +:+ "_COLOR_COOL";
         clean_name +:+ "_COLOR_PURPLE"; clean_name +:+ "_COLOR_YELLOW"]
      else [])
  ++ (if default true (Config.supports_color_temp device_info) then
        [clean_name +:+ "_TEMP_WARM"; clean_name +:+ "_TEMP_COOL";
         clean_name +:+ "_TEMP_2700K"; clean_name +:+ "_TEMP_4000K";
         clean_name +:+ "_TEMP_6500K"]
      else [])
  ++ effect_commands clean_name device_info
  ++ [clean_name +:+ "_IDENTIFY"].

(** The commands "for multiple devices". *)
Definition fleet_tokens : list string :=
  ["ALL_ON"; "ALL_OFF"; "ALL_TOGGLE"; "ALL_IDENTIFY"].

(** The list [commands] at the end of [_generate_simple_commands], before
    [sorted(list(set(commands)))]. *)
Definition collected_commands (devices : Config.devices) : list string :=
  (devices ≫= λ '(device_id, device_info), device_commands device_id device_info)
  ++ (if (1 <? length devices)%nat then fleet_tokens else []).

(** [NanoleafRemote._generate_simple_commands] *)
Definition _generate_simple_commands (devices : Config.devices) : list string :=
  match devices with
  | [] => ["NO_DEVICES"]
  | _ => merge_sort String.le (remove_dups (collected_commands devices))
  end.

(** *** The throttle guard *)

(** [_global_throttle] and [_device_throttle]. *)
Record throttle : Type := {
  _global_throttle : Q;
  _device_throttle : gmap string Q;
}.

(** The state [__init__] sets up. *)
Definition throttle_init : throttle :=
  {| _global_throttle := 0; _device_throttle := ∅ |}.

(** [a < b] on timestamps. *)
Definition Qltb (a b : Q) : bool := negb (Qle_bool b a).

(** [NanoleafRemote._check_throttle], with the value [time.time()] returned
    as [current_time]. *)
Definition _check_throttle (device_id : string) (current_time : Q) (st : throttle)
  : bool * throttle :=
  if Qltb (current_time - _global_throttle st) (1 # 10) then (false, st)
  else
    let last_time := default 0%Q (_device_throttle st !! device_id) in
    if Qltb (current_time - last_time) (3 # 10) then (false, st)
    else (true, {| _global_throttle := current_time;
                   _device_throttle := <[device_id := current_time]> (_device_throttle st) |}).

(** *** Calls to the client *)

(** The methods of [NanoleafClient] the router calls, with their arguments. *)
Inductive call : Type :=
| TurnOn (device : Client.NanoleafDevice)
| TurnOff (device : Client.NanoleafDevice)
| IdentifyDevice (device : Client.NanoleafDevice)
| GetDeviceInfo (device : Client.NanoleafDevice)
| SetBrightness (device : Client.NanoleafDevice) (brightness : Z)
| SetHue (device : Client.NanoleafDevice) (hue : Z)
| SetSaturation (device : Client.NanoleafDevice) (saturation : Z)
| SetColorTemperature (device : Client.NanoleafDevice) (kelvin : Z)
| SetEffect (device : Client.NanoleafDevice) (effect_name : string).

(** What the client answers: for the methods that return a [bool], and for
    [get_device_info].  An answer may depend on the calls made before. *)
Record client : Type := {
  answer : list call → call → outcome bool;
  device_info_answer :
    list call → Client.NanoleafDevice → outcome (option Api.device_info);
}.

(** The state of the router that commands change, and the calls made. *)
Record world : Type := {
  _device_states : gmap string bool;
  guard : throttle;
  calls : list call;
}.

(** Code that changes the state and returns or raises. *)
Definition M (T : Type) : Type := world → outcome T * world.

#[global] Instance M_ret : MRet M := λ T v w, (Ret v, w).
#[global] Instance M_bind : MBind M := λ T U k m w,
  match m w with
  | (Ret v, w') => k v w'
  | (Raise, w') => (Raise, w')
  end.

Definition raise {T : Type} : M T := λ w, (Raise, w).

(** [try: body except Exception: handler] *)
Definition try_except {T : Type} (body handler : M T) : M T := λ w,
  match body w with
  | (Ret v, w') => (Ret v, w')
  | (Raise, w') => handler w'
  end.

(** [self._device_states[device_id] = state] *)
Definition set_device_state (device_id : string) (state : bool) : M unit := λ w,
  (Ret (), {| _device_states := <[device_id := state]> (_device_states w);
              guard := guard w; calls := calls w |}).

(** [self._device_states.get(device_id, False)] *)
Definition cached_device_state (device_id : string) : M bool := λ w,
  (Ret (default false (_device_states w !! device_id)), w).

(** [if result: self._device_states[device_id] = state] *)
Definition record_if (result : bool) (device_id : string) (state : bool) : M unit :=
  if result then set_device_state device_id state else mret ().

Section WithClient.
Context (the_client : client).

(** [await self._client.<method>(...)] *)
Definition ask (c : call) : M bool := λ w,
  (answer the_client (calls w) c,
   {| _device_states := _device_states w; guard := guard w;
      calls := calls w ++ [c] |}).

Definition ask_device_info (device : Client.NanoleafDevice)
  : M (option Api.device_info) := λ w,
  (device_info_answer the_client (calls w) device,
   {| _device_states := _device_states w; guard := guard w;
      calls := calls w ++ [GetDeviceInfo device] |}).

(** The stored record as [NanoleafDevice.__init__] reads it: of the keys it
    looks up, the record has the name, the model, the manufacturer and the
    effects; it has no ["serialNo"], ["firmwareVersion"], ["state"] or
    ["panelLayout"], and its other keys only make the dictionary non-empty. *)
Definition as_attribute_bag (device_info : Config.device_config) : Api.device_info :=
  {| Api.name := Config.name device_info;
     Api.model := Config.model device_info;
     Api.serialNo := None;
     Api.firmwareVersion := None;
     Api.manufacturer := Config.manufacturer device_info;
     Api.state := None;
     Api.effects := Config.effects device_info;
     Api.panelLayout := None;
     Api.other_keys := Config.keys_not_read_by_device device_info |}.

(** [NanoleafDevice(ip_address, auth_token, device_info)]; the router
    builds the device only after it has found an address and a token. *)
Definition device_of (device_info : Config.device_config) : Client.NanoleafDevice :=
  Client.new_device (default "" (Config.ip_address device_info))
                    (Config.auth_token device_info)
                    (Some (as_attribute_bag device_info)).

(** [device_info["state"].get("on", {}).get("value", False)] *)
Definition reported_on (device_info : Api.device_info) : bool :=
  Client.state_value Api.on false device_info.

(** [NanoleafRemote._get_device_state(device_id, device)]; the router
    always passes the device. *)
Definition _get_device_state (device_id : string) (device : Client.NanoleafDevice)
  : M bool :=
  try_except
    (device_info ← ask_device_info device;
     match device_info with
     | Some info =>
         if Api.nonempty info && has_key (Api.state info) then
           let state := reported_on info in
           _ ← set_device_state device_id state;
           mret state
         else cached_device_state device_id
     | None => cached_device_state device_id
     end)
    (cached_device_state device_id).

(** [NanoleafRemote._execute_device_action_safe(device_id, action,
    device_name)]; [device_name] is only logged. *)
Definition _execute_device_action_safe (devices : Config.devices)
    (device_id action : string) : M bool :=
  try_except
    (match dict_get device_id devices with
     | None => mret false
     | Some device_info =>
         if negb (Config.nonempty device_info) then mret false
         else if negb (truthy (Config.ip_address device_info))
                 || negb (truthy (Config.auth_token device_info))
         then mret false
         else
           let device := device_of device_info in
           if bool_decide (action = "turn_on") then
             result ← ask (TurnOn device);
             _ ← record_if result device_id true;
             mret result
           else if bool_decide (action = "turn_off") then
             result ← ask (TurnOff device);
             _ ← record_if result device_id false;
             mret result
           else if bool_decide (action = "toggle") then
             current_state ← _get_device_state device_id device;
             if current_state : bool then
               result ← ask (TurnOff device);
               _ ← record_if result device_id false;
               mret result
             else
               result ← ask (TurnOn device);
               _ ← record_if result device_id true;
               mret result
           else if bool_decide (action = "identify") then
             ask (IdentifyDevice device)
           else mret false
     end)
    (mret false).

(** The action a fleet command asks of each device; [None] is the branch
    "Unknown global command", which skips the device. *)
Definition global_action (command : string) : option string :=
  if bool_decide (command = "ALL_ON") then Some "turn_on"
  else if bool_decide (command = "ALL_OFF") then Some "turn_off"
  else if bool_decide (command = "ALL_TOGGLE") then Some "toggle"
  else if bool_decide (command = "ALL_IDENTIFY") then Some "identify"
  else None.

(** The list [tasks] that [_execute_global_command] builds: the device and
    the action of each task. *)
Definition global_tasks (devices : Config.devices) (command : string)
  : list (string * string) :=
  devices ≫= λ '(device_id, _),
    match global_action command with
    | Some action => [(device_id, action)]
    | None => []
    end.

(** [asyncio.gather] over [tasks] with [return_exceptions=True]: every task is
    run, and what a task raises becomes its result.  The tasks are run one
    after the other, in the order of the list. *)
Fixpoint gather (tasks : list (M bool)) (w : world) : list (outcome bool) * world :=
  match tasks with
  | [] => ([], w)
  | task :: tasks' =>
      let '(result, w1) := task w in
      let '(results, w2) := gather tasks' w1 in
      (result :: results, w2)
  end.

(** The loop over [results]: the number of results that are [True]. *)
Fixpoint success_count (results : list (outcome bool)) : nat :=
  match results with
  | [] => O
  | Raise :: results' => success_count results'
  | Ret true :: results' => S (success_count results')
  | Ret false :: results' => success_count results'
  end.

(** [NanoleafRemote._execute_global_command] *)
Definition _execute_global_command (devices : Config.devices) (command : string)
  : M bool := λ w,
  let tasks := global_tasks devices command in
  match tasks with
  | [] => (Ret false, w)
  | _ =>
      let '(results, w') :=
        gather ((λ '(device_id, action),
                   _execute_device_action_safe devices device_id action) <$> tasks) w in
      (Ret (0 <? success_count results)%nat, w')
  end.

(** *** Actions on one device *)

(** [color_map]: hue and saturation of the named colors. *)
Definition color_map : list (string * (Z * Z)) :=
  [("RED", (0, 100)); ("GREEN", (120, 100)); ("BLUE", (240, 100));
   ("WHITE", (0, 0)); ("PURPLE", (300, 100)); ("YELLOW", (60, 100));
   ("WARM", (30, 50)); ("COOL", (210, 30))]%Z.

(** [temp_map]: the Kelvin value of the temperature presets. *)
Definition temp_map : list (string * Z) :=
  [("WARM", 2700); ("COOL", 6500); ("2700K", 2700); ("4000K", 4000);
   ("6500K", 6500)]%Z.

(** The color action an Elements device runs for a temperature action;
    [None] is "Unknown temperature action for Elements". *)
Definition elements_color_action (action : string) : option string :=
  if bool_decide (action = "TEMP_WARM") then Some "COLOR_WARM"
  else if bool_decide (action = "TEMP_COOL") then Some "COLOR_COOL"
  else if str_contains "2700K" action then Some "COLOR_WARM"
  else if str_contains "4000K" action || str_contains "6500K" action
  then Some "COLOR_COOL"
  else None.

(** The percentage in a [BRIGHTNESS_<n>] action: the first part between
    underscores that is a number, 50 when there is none. *)
Definition brightness_percentage (action : string) : Z :=
  match List.find str_isdigit (str_split action "_"%char) with
  | Some part => int_of_digits part
  | None => 50%Z
  end.

(** [device.brightness]; the attribute may be missing. *)
Definition device_brightness (device : Client.NanoleafDevice) : M Z :=
  match Client.brightness device with
  | Some b => mret b
  | None => raise
  end.

(** The body of [NanoleafRemote._execute_device_action]; [self] is the
    method itself, which the body calls for an Elements device with the
    same device, record and id and with another action. *)
Definition execute_device_action_body (self : string → M bool)
    (device : Client.NanoleafDevice) (action : string)
    (device_info : Config.device_config) (device_id : option string) : M bool :=
  let id := default "" device_id in
  try_except
    (if bool_decide (action = "ON") then
       result ← ask (TurnOn device);
       _ ← record_if (result && truthy device_id) id true;
       mret result
     else if bool_decide (action = "OFF") then
       result ← ask (TurnOff device);
       _ ← record_if (result && truthy device_id) id false;
       mret result
     else if bool_decide (action = "TOGGLE") then
       if truthy device_id then
         current_state ← _get_device_state id device;
         if current_state : bool then
           result ← ask (TurnOff device);
           _ ← record_if result id false;
           mret result
         else
           result ← ask (TurnOn device);
           _ ← record_if result id true;
           mret result
       else ask (TurnOn device)
     else if bool_decide (action = "IDENTIFY") then
       ask (IdentifyDevice device)
     else if str_startswith action "BRIGHTNESS_" then
       brightness ←
         (if str_contains "UP" action then
            b ← device_brightness device; mret (Z.min 100 (b + 20))
          else if str_contains "DOWN" action then
            b ← device_brightness device; mret (Z.max 1 (b - 20))
          else mret (brightness_percentage action));
       ask (SetBrightness device brightness)
     else if str_startswith action "COLOR_" then
       let color_name := str_replace action "COLOR_" "" in
       match dict_get color_name color_map with
       | Some (hue, sat) =>
           _ ← ask (SetHue device hue);
           _ ← ask (SetSaturation device sat);
           mret true
       | None => mret false
       end
     else if str_startswith action "TEMP_" then
       let device_type := default "" (Config.device_type device_info) in
       if bool_decide (device_type = "elements") then
         match elements_color_action action with
         | Some color_action => self color_action
         | None => mret false
         end
       else
         let temp_name := str_replace action "TEMP_" "" in
         match dict_get temp_name temp_map with
         | Some kelvin => ask (SetColorTemperature device kelvin)
         | None => mret false
         end
     else if str_startswith action "EFFECT_" then
       let effect_name := str_replace (str_replace action "EFFECT_" "") "_" " " in
       let effects_list := default [] (Config.effects_list device_info) in
       match List.find (λ effect, bool_decide (_clean_command_name effect
                                             = _clean_command_name effect_name))
                       effects_list with
       | Some effect => ask (SetEffect device effect)
       | None =>
           if bool_decide (effect_name ∈ effects_list)
           then ask (SetEffect device effect_name)
           else mret false
       end
     else mret false)
    (mret false).

(** [NanoleafRemote._execute_device_action].  The method calls itself only
    with [COLOR_WARM] or [COLOR_COOL], and the call made with one of those
    calls nothing: two levels of the body are the whole recursion
    (see [_execute_device_action_unfold]). *)
Definition _execute_device_action (device : Client.NanoleafDevice)
    (action : string) (device_info : Config.device_config)
    (device_id : option string) : M bool :=
  execute_device_action_body
    (λ color_action,
       execute_device_action_body (λ _, mret false)
         device color_action device_info device_id)
    device action device_info device_id.

(** [NanoleafRemote._check_throttle] on the router's state. *)
Definition check_throttle (device_id : string) (current_time : Q) : M bool := λ w,
  let '(ok, guard') := _check_throttle device_id current_time (guard w) in
  (Ret ok, {| _device_states := _device_states w; guard := guard';
              calls := calls w |}).

(** [NanoleafRemote._execute_device_command]: the loop over the devices
    stops at the first one whose prefix the command starts with. *)
Fixpoint _execute_device_command (devices : Config.devices) (command : string)
    (current_time : Q) : M bool :=
  match devices with
  | [] => mret false
  | (device_id, device_info) :: devices' =>
      let device_prefix :=
        _clean_command_name (device_name_of device_id device_info) in
      if str_startswith command (device_prefix +:+ "_") then
        ok ← check_throttle device_id current_time;
        if negb ok then mret true
        else
          let action_part :=
            str (drop (String.length device_prefix + 1) (chars command)) in
          try_except
            (if negb (truthy (Config.ip_address device_info))
                || negb (truthy (Config.auth_token device_info))
             then mret false
             else _execute_device_action (device_of device_info) action_part
                    device_info (Some device_id))
            (mret false)
      else _execute_device_command devices' command current_time
  end.

(** [NanoleafRemote._execute_nanoleaf_command]: the dispatch of a token. *)
Definition _execute_nanoleaf_command (devices : Config.devices) (command : string)
    (current_time : Q) : M bool :=
  try_except
    (if bool_decide (devices = []) || bool_decide (command = "NO_DEVICES")
     then mret false
     else if str_startswith command "ALL_"
     then _execute_global_command devices command
     else _execute_device_command devices command current_time)
    (mret false).

End WithClient.
End Remote.

(** ** [setup.py]: the setup flow *)

Module Setup.

(** [uc.IntegrationSetupError] *)
Inductive IntegrationSetupError : Type :=
| NONE | NOT_FOUND | CONNECTION_REFUSED | AUTHORIZATION_ERROR | TIMEOUT | OTHER.

(** The values of [_setup_phase]. *)
Inductive phase : Type := discovery | selection | pairing | complete.

(** One entry of the [settings] of a [RequestUserInput]. *)
Inductive field : Type :=
| Dropdown (items : list (string * string))
| Text (value placeholder : option string)
| Checkbox (value : bool).

Record setting : Type := {
  setting_id : string;
  setting_label : string;
  setting_field : field;
}.

(** [uc.SetupAction].  A confirmation request is kept as the two values
    its texts are formatted from: the number of selected devices and their
    addresses. *)
Inductive SetupAction : Type :=
| RequestUserInput (title : string) (settings : list setting)
| RequestUserConfirmation (device_count : nat) (device_list : list (string * Z))
| SetupComplete
| SetupError (error : IntegrationSetupError).

(** [uc.SetupDriver], the messages of the host. *)
Inductive SetupDriver : Type :=
| DriverSetupRequest (reconfigure : bool)
| UserDataResponse (input_values : gmap string string)
| UserConfirmationResponse (confirm : bool)
| AbortDriverSetup (error : IntegrationSetupError)
| OtherMessage.

(** The state of a [NanoleafSetup] and of the configuration it writes. *)
Record session : Type := {
  config : Config.devices;
  _discovered_devices : list (string * Z);
  _selected_devices : list (string * Z);
  _setup_phase : phase;
}.

(** What the setup flow calls: the client, the module [ipaddress], the
    completion callback, and the time after which the pairing of an address
    resolves ([None]: it never does). *)
Record environment : Type := {
  discover_devices : outcome (list (string * Z));
  scan_ip_range : string → outcome (list (string * Z));
  is_ip_address : string → bool;
  pair_device : string → Z → outcome (option string);
  get_device_info : Client.NanoleafDevice → outcome (option Api.device_info);
  test_connection : Client.NanoleafDevice → outcome bool;
  resolves_after : string * Z → option Q;
  _setup_complete_callback : Config.devices → outcome unit;
}.

Definition with_phase (p : phase) (st : session) : session :=
  {| config := config st; _discovered_devices := _discovered_devices st;
     _selected_devices := _selected_devices st; _setup_phase := p |}.

Definition with_discovered (found : list (string * Z)) (st : session) : session :=
  {| config := config st; _discovered_devices := found;
     _selected_devices := _selected_devices st; _setup_phase := _setup_phase st |}.

Definition with_selected (chosen : list (string * Z)) (st : session) : session :=
  {| config := config st; _discovered_devices := _discovered_devices st;
     _selected_devices := chosen; _setup_phase := _setup_phase st |}.

Definition with_config (c : Config.devices) (st : session) : session :=
  {| config := c; _discovered_devices := _discovered_devices st;
     _selected_devices := _selected_devices st; _setup_phase := _setup_phase st |}.

(** [NanoleafSetup._handle_no_devices_found] *)
Definition _handle_no_devices_found : SetupAction :=
  RequestUserInput "No Nanoleaf Devices Found"
    [ {| setting_id := "discovery_method"; setting_label := "Discovery Method";
         setting_field := Dropdown [("manual", "Manual IP Entry");
                            ("scan", "Network Scan (slower)");
                            ("retry", "Retry Auto Discovery")] |};
      {| setting_id := "manual_ip"; setting_label := "Device IP Address (if manual)";
         setting_field := Text None (Some "192.168.1.100") |} ].

(** [NanoleafSetup._get_device_friendly_name] *)
Definition _get_device_friendly_name (ip_address : string) (port : Z) : string :=
  if bool_decide (port = 16021%Z) then "Living Room Panels"
  else if bool_decide (port = 16022%Z) then "Bedroom Canvas"
  else if bool_decide (port = 16023%Z) then "Office Shapes"
  else "Device at " +:+ ip_address +:+ ":" +:+ str_of_Z port.

(** The checkbox of the [i]-th candidate: ["device_<i>"]. *)
Definition device_key (i : nat) : string := "device_" +:+ str_of_nat i.

(** [NanoleafSetup._create_device_selection_ui] *)
Definition _create_device_selection_ui (st : session) : SetupAction :=
  match _discovered_devices st with
  | [] => SetupError NOT_FOUND
  | found =>
      let max_devices := Nat.min 3 (length found) in
      let devices_for_selection := take max_devices found in
      RequestUserInput "Select Nanoleaf Devices"
        ([ {| setting_id := "info_text"; setting_label := "Device Selection";
              setting_field := Text (Some ("Found " +:+ str_of_nat (length found)
                                   +:+ " Nanoleaf devices. Select up to "
                                   +:+ str_of_nat max_devices
                                   +:+ " for quick setup:")) None |} ]
         ++ imap (λ i '(ip_address, port),
                    {| setting_id := device_key i;
                       setting_label := _get_device_friendly_name ip_address port;
                       setting_field := Checkbox (bool_decide (i = 0%nat)) |})
                 devices_for_selection
         ++ (if (max_devices <? length found)%nat then
               [ {| setting_id := "additional_note"; setting_label := "Additional Devices";
                    setting_field := Text (Some (str_of_nat (length found - max_devices)
                                         +:+ " more devices found - can be added after initial setup"))
                                  None |} ]
             else []))
  end.

(** The loop of [_handle_device_selection]: the candidates, of the first
    three, whose checkbox holds a true value. *)
Definition selected_of (input_values : gmap string string)
    (found : list (string * Z)) : list (string * Z) :=
  (imap (λ i candidate,
           if truthy (input_values !! device_key i) then [candidate] else [])
        (take 3 found)) ≫= (λ chosen, chosen).

(** [NanoleafSetup._show_simultaneous_pairing_instructions] *)
Definition _show_simultaneous_pairing_instructions (st : session) : SetupAction :=
  RequestUserConfirmation (length (_selected_devices st)) (_selected_devices st).

(** [NanoleafSetup._handle_device_selection] *)
Definition _handle_device_selection (input_values : gmap string string)
    (st : session) : SetupAction * session :=
  match selected_of input_values (_discovered_devices st) with
  | [] => (SetupError OTHER, st)
  | selected_devices =>
      let st := with_phase pairing (with_selected selected_devices st) in
      (_show_simultaneous_pairing_instructions st, st)
  end.

Section WithEnvironment.
Context (env : environment).

(** [NanoleafSetup._start_breakthrough_discovery] *)
Definition _start_breakthrough_discovery (st : session) : SetupAction * session :=
  let st := with_phase discovery st in
  match discover_devices env with
  | Raise => (SetupError OTHER, st)
  | Ret [] => (_handle_no_devices_found, st)
  | Ret discovered_devices =>
      let st := with_phase selection (with_discovered discovered_devices st) in
      (_create_device_selection_ui st, st)
  end.

(** The characters [str.strip()] removes, among the ASCII ones. *)
Definition ascii_whitespace : list ascii :=
  ascii_of_N <$> [9; 10; 11; 12; 13; 28; 29; 30; 31; 32]%N.

(** [NanoleafSetup._handle_discovery_method_selection] *)
Definition _handle_discovery_method_selection (input_values : gmap string string)
    (st : session) : SetupAction * session :=
  let discovery_method := default "manual" (input_values !! "discovery_method") in
  let manual_ip :=
    str (strip ascii_whitespace (chars (default "" (input_values !! "manual_ip")))) in
  if bool_decide (discovery_method = "manual") && negb (bool_decide (manual_ip = ""))
  then
    if is_ip_address env manual_ip then
      let st := with_phase selection (with_discovered [(manual_ip, 16021%Z)] st) in
      (_create_device_selection_ui st, st)
    else (SetupError OTHER, st)
  else if bool_decide (discovery_method = "scan") then
    match scan_ip_range env "192.168.1" with
    | Raise => (SetupError OTHER, st)
    | Ret [] => (SetupError NOT_FOUND, st)
    | Ret scanned_devices =>
        let st := with_phase selection (with_discovered scanned_devices st) in
        (_create_device_selection_ui st, st)
    end
  else if bool_decide (discovery_method = "retry") then
    _start_breakthrough_discovery st
  else (SetupError OTHER, st).

(** [NanoleafSetup._handle_user_data_response] *)
Definition _handle_user_data_response (input_values : gmap string string)
    (st : session) : SetupAction * session :=
  match _setup_phase st with
  | discovery => _handle_discovery_method_selection input_values st
  | selection => _handle_device_selection input_values st
  | _ => (SetupError OTHER, st)
  end.

(** [{"name": f"Nanoleaf {ip_address}", "model": "Unknown"}] *)
Definition basic_info (ip_address : string) : Api.device_info :=
  {| Api.name := Some ("Nanoleaf " +:+ ip_address); Api.model := Some "Unknown";
     Api.serialNo := None; Api.firmwareVersion := None; Api.manufacturer := None;
     Api.state := None; Api.effects := None; Api.panelLayout := None;
     Api.other_keys := [] |}.

(** [NanoleafSetup._pair_device_async]: what the attempt returns or raises
    once it resolves. *)
Definition _pair_device_async (ip_address : string) (port : Z)
  : outcome (option (string * Api.device_info)) :=
  match pair_device env ip_address port with
  | Raise => Raise
  | Ret auth_token =>
      if truthy auth_token then
        let token := default "" auth_token in
        match get_device_info env (Client.new_device ip_address (Some token) None) with
        | Raise => Raise
        | Ret (Some device_info) =>
            if Api.nonempty device_info then Ret (Some (token, device_info))
            else Ret (Some (token, basic_info ip_address))
        | Ret None => Ret (Some (token, basic_info ip_address))
        end
      else Ret None
  end.

(** [asyncio.wait_for(asyncio.gather(...), timeout)]: the results of all
    the attempts when each of them resolves within [timeout] seconds;
    [None], that is [asyncio.TimeoutError], when one does not. *)
Definition resolved_within (timeout : Q) (after : option Q) : bool :=
  match after with
  | Some t => Qle_bool t timeout
  | None => false
  end.

Definition gather_within (timeout : Q) (selected : list (string * Z))
  : option (list (outcome (option (string * Api.device_info)))) :=
  if forallb (λ address, resolved_within timeout (resolves_after env address)) selected
  then Some ((λ '(ip_address, port), _pair_device_async ip_address port) <$> selected)
  else None.

(** The loop over [results]: the configuration, [successful_devices] and
    [failed_devices] after it.  [add_device] is called without a port. *)
Fixpoint process_results (selected : list (string * Z))
    (results : list (outcome (option (string * Api.device_info))))
    (acc : Config.devices * list string * list string)
  : Config.devices * list string * list string :=
  match selected, results with
  | (ip_address, _) :: selected', result :: results' =>
      let '(cfg, successful_devices, failed_devices) := acc in
      process_results selected' results'
        match result with
        | Raise => (cfg, successful_devices, failed_devices ++ [ip_address])
        | Ret None => (cfg, successful_devices, failed_devices ++ [ip_address])
        | Ret (Some (auth_token, device_info)) =>
            (Config.add_device ip_address auth_token device_info 16021 cfg,
             successful_devices ++ [ip_address], failed_devices)
        end
  | _, _ => acc
  end.

(** [NanoleafSetup._complete_breakthrough_setup] *)
Definition _complete_breakthrough_setup (st : session) : SetupAction :=
  match config st with
  | [] => SetupError NOT_FOUND
  | devices =>
      match _setup_complete_callback env devices with
      | Ret _ => SetupComplete
      | Raise => SetupError OTHER
      end
  end.

(** [NanoleafSetup._execute_simultaneous_pairing] *)
Definition _execute_simultaneous_pairing (st : session) : SetupAction * session :=
  match gather_within 30 (_selected_devices st) with
  | None => (SetupError TIMEOUT, st)
  | Some results =>
      let '(cfg, successful_devices, failed_devices) :=
        process_results (_selected_devices st) results (config st, [], []) in
      let st := with_config cfg st in
      match successful_devices with
      | [] => (SetupError OTHER, st)
      | _ => (_complete_breakthrough_setup st, st)
      end
  end.

(** [NanoleafSetup._handle_user_confirmation_response] *)
Definition _handle_user_confirmation_response (confirm : bool) (st : session)
  : SetupAction * session :=
  match _setup_phase st with
  | pairing =>
      if negb confirm then (SetupError OTHER, st)
      else _execute_simultaneous_pairing st
  | _ => (SetupError OTHER, st)
  end.

(** [NanoleafSetup._handle_abort_setup] *)
Definition _handle_abort_setup (error : IntegrationSetupError) (st : session)
  : SetupAction * session :=
  (SetupError error, with_config (Config.clear (config st)) st).

(** [NanoleafConfig.is_configured] *)
Definition is_configured (devices : Config.devices) : bool :=
  (0 <? length devices)%nat
  && existsb (λ '(_, device), truthy (Config.auth_token device)) devices.

(** The loop of [_test_existing_config] over the stored devices. *)
Fixpoint test_stored_devices (devices : Config.devices) : outcome bool :=
  match devices with
  | [] => Ret false
  | (_, device_config) :: devices' =>
      if truthy (Config.ip_address device_config)
         && truthy (Config.auth_token device_config)
      then
        match test_connection env
                (Client.new_device (default "" (Config.ip_address device_config))
                                   (Config.auth_token device_config) None) with
        | Raise => Raise
        | Ret true => Ret true
        | Ret false => test_stored_devices devices'
        end
      else test_stored_devices devices'
  end.

(** [NanoleafSetup._test_existing_config] *)
Definition _test_existing_config (st : session) : bool :=
  match test_stored_devices (config st) with
  | Ret verified => verified
  | Raise => false
  end.

(** [NanoleafSetup._handle_driver_setup_request]; what the completion
    callback raises here is not caught. *)
Definition _handle_driver_setup_request (reconfigure : bool) (st : session)
  : outcome SetupAction * session :=
  if is_configured (config st) && negb reconfigure && _test_existing_config st
  then
    match _setup_complete_callback env (config st) with
    | Ret _ => (Ret SetupComplete, st)
    | Raise => (Raise, st)
    end
  else
    let '(action, st') := _start_breakthrough_discovery st in (Ret action, st').

(** [NanoleafSetup.setup_handler] *)
Definition setup_handler (msg : SetupDriver) (st : session)
  : outcome SetupAction * session :=
  match msg with
  | DriverSetupRequest reconfigure => _handle_driver_setup_request reconfigure st
  | UserDataResponse input_values =>
      let '(action, st') := _handle_user_data_response input_values st in
      (Ret action, st')
  | UserConfirmationResponse confirm =>
      let '(action, st') := _handle_user_confirmation_response confirm st in
      (Ret action, st')
  | AbortDriverSetup error =>
      let '(action, st') := _handle_abort_setup error st in (Ret action, st')
  | OtherMessage => (Ret (SetupError OTHER), st)
  end.

End WithEnvironment.
End Setup.

(** * Specification-side definitions and sample data *)

(** A character that the first two steps of the cleaning leave alone. *)
Definition settled {A : Type} (to_upper : A → list A) (is_alnum : A → bool)
    (us : A) (c : A) : Prop :=
  c = us ∨ (is_alnum c = true ∧ to_upper c = [c]).

(** A throttle state after one command to ["dev1"] at time 1000. *)
Definition throttle_after_dev1 : Remote.throttle :=
  snd (Remote._check_throttle "dev1" 1000 Remote.throttle_init).

(** An attribute bag with a name, a model and a list of effects. *)
Definition bag_of (name model : string) (effects : list string) : Api.device_info :=
  {| Api.name := Some name; Api.model := Some model; Api.serialNo := None;
     Api.firmwareVersion := None; Api.manufacturer := None; Api.state := None;
     Api.effects := Some {| Api.select := None; Api.effectsList := Some effects |};
     Api.panelLayout := None; Api.other_keys := [] |}.

(** The classification as the specification words it: the family of the
    first known code found in the model, else the family of the first
    keyword found in the name, else ["panels"]. *)
Definition family_codes : list (string * string) :=
  [("NL22", "light_panels"); ("NL42", "light_panels"); ("NL29", "canvas");
   ("NL52", "shapes"); ("NL59", "shapes"); ("NL64", "elements");
   ("NL69", "lines")].

Definition family_keywords : list (string * string) :=
  [("ELEMENTS", "elements"); ("CANVAS", "canvas"); ("SHAPES", "shapes");
   ("LINES", "lines"); ("STRIP", "strip")].

Fixpoint first_family (table : list (string * string)) (text : string)
  : option string :=
  match table with
  | [] => None
  | (pattern, family) :: table' =>
      if str_contains pattern text then Some family else first_family table' text
  end.

Definition classify (model name : string) : string :=
  match first_family family_codes (upper model) with
  | Some family => family
  | None => default "panels" (first_family family_keywords (upper name))
  end.

(** The suffixes that [device_commands] appends to the sanitized name,
    the effect commands apart. *)
Definition fixed_suffixes : list string :=
  ["_ON"; "_OFF"; "_TOGGLE"; "_BRIGHTNESS_UP"; "_BRIGHTNESS_DOWN";
   "_BRIGHTNESS_25"; "_BRIGHTNESS_50"; "_BRIGHTNESS_75"; "_BRIGHTNESS_100";
   "_COLOR_RED"; "_COLOR_GREEN"; "_COLOR_BLUE"; "_COLOR_WHITE"; "_COLOR_WARM";
   "_COLOR_COOL"; "_COLOR_PURPLE"; "_COLOR_YELLOW"; "_TEMP_WARM"; "_TEMP_COOL";
   "_TEMP_2700K"; "_TEMP_4000K"; "_TEMP_6500K"; "_IDENTIFY"].

(** A stored device with a name and a list of effects. *)
Definition device_named (name : string) (effects : list string)
  : Config.device_config :=
  Config.new_device_config "10.0.0.5" "token" (bag_of name "NL42" effects) 16021.

Definition one_device_named_all : Config.devices :=
  [("10_0_0_5_16021", device_named "All" [])].

Definition desk_and_wall : Config.devices :=
  [("desk", device_named "Desk" ["Flames"]); ("wall", device_named "Wall" [])].

(** The tasks of a fleet command: one per device, in the order of the
    devices. *)
Definition fleet_tasks (the_client : Remote.client) (devices : Config.devices)
    (action : string) : list (Remote.M bool) :=
  (λ device : string * Config.device_config,
     Remote._execute_device_action_safe the_client devices device.1 action)
  <$> devices.

(** Three devices with credentials, and a client whose every call
    succeeds but the calls to the second device, which raise. *)
Definition stored_device (name ip_address : string) : Config.device_config :=
  Config.new_device_config ip_address "token" (bag_of name "NL42" ["Flames"]) 16021.

Definition three_devices : Config.devices :=
  [("10_0_0_1_16021", stored_device "Desk" "10.0.0.1");
   ("10_0_0_2_16021", stored_device "Wall" "10.0.0.2");
   ("10_0_0_3_16021", stored_device "Shelf" "10.0.0.3")].

Definition called_device (c : Remote.call) : Client.NanoleafDevice :=
  match c with
  | Remote.TurnOn d | Remote.TurnOff d | Remote.IdentifyDevice d
  | Remote.GetDeviceInfo d | Remote.SetBrightness d _ | Remote.SetHue d _
  | Remote.SetSaturation d _ | Remote.SetColorTemperature d _
  | Remote.SetEffect d _ => d
  end.

Definition second_device_fails : Remote.client :=
  {| Remote.answer := λ _ c,
       if bool_decide (Client.ip_address (called_device c) = "10.0.0.2")
       then Raise else Ret true;
     Remote.device_info_answer := λ _ _, Ret None |}.

Definition always_succeeds : Remote.client :=
  {| Remote.answer := λ _ _, Ret true;
     Remote.device_info_answer := λ _ _, Ret None |}.

Definition world_init : Remote.world :=
  {| Remote._device_states := ∅; Remote.guard := Remote.throttle_init;
     Remote.calls := [] |}.

Definition one_device_named_all_lights : Config.devices :=
  [("10_0_0_1_16021", stored_device "All Lights" "10.0.0.1")].

(** What a color action does: it sets the hue, then the saturation, and
    returns [True]; if a call raises, it returns [False]. *)
Definition set_color (the_client : Remote.client) (device : Client.NanoleafDevice)
    (hue sat : Z) : Remote.M bool :=
  Remote.try_except
    (_ ← Remote.ask the_client (Remote.SetHue device hue);
     _ ← Remote.ask the_client (Remote.SetSaturation device sat);
     mret true)
    (mret false).

(** What a temperature action does on a device that has temperature
    control. *)
Definition set_temperature (the_client : Remote.client)
    (device : Client.NanoleafDevice) (kelvin : Z) : Remote.M bool :=
  Remote.try_except
    (Remote.ask the_client (Remote.SetColorTemperature device kelvin))
    (mret false).

(** An Elements device and a device with temperature control. *)
Definition elements_device : Config.device_config :=
  Config.new_device_config "10.0.0.4" "token" (bag_of "Hexagons" "NL64" []) 16021.

Definition panels_device : Config.device_config :=
  Config.new_device_config "10.0.0.1" "token" (bag_of "Desk" "NL42" []) 16021.

(** An attempt that returned a token. *)
Definition paired (result : outcome (option (string * Api.device_info))) : bool :=
  match result with
  | Ret (Some _) => true
  | _ => false
  end.

(** The attempts of a batch. *)
Definition attempts (env : Setup.environment) (selected : list (string * Z))
  : list (outcome (option (string * Api.device_info))) :=
  (λ '(ip_address, port), Setup._pair_device_async env ip_address port)
  <$> selected.

(** The attempt resolves before the deadline of 30 s. *)
Definition resolves_in_time (env : Setup.environment) (address : string * Z) : Prop :=
  ∃ t, Setup.resolves_after env address = Some t ∧ (t <= 30)%Q.

(** A setup environment in which the pairing of the addresses in [never]
    does not resolve, the devices in [refuse] are not in pairing mode, and
    every other pairing returns a token after 2 s. *)
Definition pairing_env (never refuse : list string) : Setup.environment :=
  {| Setup.discover_devices := Ret [];
     Setup.scan_ip_range := λ _, Ret [];
     Setup.is_ip_address := λ _, true;
     Setup.pair_device := λ ip_address _,
       if bool_decide (ip_address ∈ refuse) then Ret None else Ret (Some "token");
     Setup.get_device_info := λ _, Ret (Some (bag_of "Desk" "NL42" ["Flames"]));
     Setup.test_connection := λ _, Ret true;
     Setup.resolves_after := λ address,
       if bool_decide (address.1 ∈ never) then None else Some 2%Q;
     Setup._setup_complete_callback := λ _, Ret () |}.

Definition three_candidates : list (string * Z) :=
  [("10.0.0.1", 16021%Z); ("10.0.0.2", 16021%Z); ("10.0.0.3", 16021%Z)].

(** A session in the pairing phase, its three candidates selected. *)
Definition pairing_session : Setup.session :=
  {| Setup.config := []; Setup._discovered_devices := three_candidates;
     Setup._selected_devices := three_candidates; Setup._setup_phase := Setup.pairing |}.

(** A session in the selection phase. *)
Definition selection_session : Setup.session :=
  {| Setup.config := []; Setup._discovered_devices := three_candidates;
     Setup._selected_devices := []; Setup._setup_phase := Setup.selection |}.

(** * Properties *)

(** ** Facts about the [str] methods *)

Section PyStrFacts.
Context {A : Type} `{EqDecision A}.
Implicit Types (p s old new : list A).

Lemma startswith_spec p s : startswith p s = true ↔ ∃ r, s = p ++ r.
Proof.
  revert s. induction p as [|a p IH]; intros s; simpl.
  - split; [intros _; by exists s | done].
  - destruct s as [|b s].
    + split; [done | intros [r Hr]; discriminate].
    + rewrite andb_true_iff, bool_decide_eq_true, IH. split.
      * intros [-> [r ->]]. by exists r.
      * intros [r Hr]. simplify_eq/=. eauto.
Qed.

Lemma contains_spec p s : contains p s = true ↔ ∃ l r, s = l ++ p ++ r.
Proof.
  induction s as [|c s IH]; simpl.
  - rewrite orb_false_r, startswith_spec. split.
    + intros [r Hr]. by exists [], r.
    + intros [l [r Hr]]. symmetry in Hr.
      apply app_eq_nil in Hr as [-> Hr]. eauto.
  - rewrite orb_true_iff, startswith_spec, IH. split.
    + intros [[r Hr] | (l & r & ->)]; [by exists [], r | by exists (c :: l), r].
    + intros (l & r & Hlr). destruct l as [|c' l]; simplify_eq/=; eauto.
Qed.

Lemma contains_false_app p l r :
  contains p (l ++ r) = false → contains p l = false ∧ contains p r = false.
Proof.
  intros Hc. split; apply not_true_is_false; intros Hin;
    apply contains_spec in Hin as (x & y & ->);
    apply not_true_iff_false in Hc; apply Hc, contains_spec.
  - exists x, (y ++ r). by rewrite <- !(assoc_L (++)).
  - exists (l ++ x), y. by rewrite <- !(assoc_L (++)).
Qed.

Lemma replace_from_absent old new s :
  contains old s = false → replace_from old new 0 s = s.
Proof.
  induction s as [|c s IH]; [done|]. simpl contains. intros Hc.
  apply orb_false_iff in Hc as [Hs Hc]. simpl. rewrite Hs. f_equal. by apply IH.
Qed.

Lemma replace_absent old new s : contains old s = false → replace old new s = s.
Proof. apply replace_from_absent. Qed.

Lemma replace_from_Forall (P : A → Prop) old new k s :
  Forall P new → Forall P s → Forall P (replace_from old new k s).
Proof.
  intros Hnew Hs. revert k. induction Hs as [|c s Hc Hs IH]; intros k; [done|].
  simpl. destruct k as [|k]; [|apply IH].
  destruct (startswith old (c :: s)).
  - apply Forall_app. split; [done | apply IH].
  - constructor; [done | apply IH].
Qed.

Lemma lstrip_suffix chs s : ∃ l, s = l ++ lstrip chs s.
Proof.
  induction s as [|c s [l IH]]; [by exists []|]. simpl. case_bool_decide.
  - exists (c :: l). by rewrite <- app_comm_cons, <- IH.
  - by exists [].
Qed.

Lemma rstrip_prefix chs s : ∃ r, s = rstrip chs s ++ r.
Proof.
  unfold rstrip. destruct (lstrip_suffix chs (reverse s)) as [l Hl].
  exists (reverse l). rewrite <- reverse_app, <- Hl. by rewrite reverse_involutive.
Qed.

Lemma lstrip_head chs s c : head (lstrip chs s) = Some c → c ∉ chs.
Proof.
  induction s as [|c' s IH]; [done|]. simpl. case_bool_decide; [done|].
  simpl. by intros [= ->].
Qed.

Lemma lstrip_id chs s : (∀ c, head s = Some c → c ∉ chs) → lstrip chs s = s.
Proof.
  destruct s as [|c s]; [done|]. simpl. intros Hc.
  rewrite bool_decide_eq_false_2; [done | by apply Hc].
Qed.

Lemma rstrip_last chs s c : last (rstrip chs s) = Some c → c ∉ chs.
Proof.
  unfold rstrip. rewrite last_reverse. apply lstrip_head.
Qed.

Lemma rstrip_id chs s : (∀ c, last s = Some c → c ∉ chs) → rstrip chs s = s.
Proof.
  intros Hc. unfold rstrip. rewrite lstrip_id, reverse_involutive; [done|].
  intros c. rewrite head_reverse. apply Hc.
Qed.

Lemma strip_Forall (P : A → Prop) chs s : Forall P s → Forall P (strip chs s).
Proof.
  intros Hs. unfold strip.
  destruct (lstrip_suffix chs s) as [l Hl].
  destruct (rstrip_prefix chs (lstrip chs s)) as [r Hr].
  rewrite Hl, Hr in Hs. apply Forall_app in Hs as [_ Hs].
  by apply Forall_app in Hs as [Hs _].
Qed.

Lemma strip_contains_false p chs s :
  contains p s = false → contains p (strip chs s) = false.
Proof.
  intros Hs. unfold strip.
  destruct (lstrip_suffix chs s) as [l Hl].
  destruct (rstrip_prefix chs (lstrip chs s)) as [r Hr].
  rewrite Hl in Hs. apply contains_false_app in Hs as [_ Hs].
  rewrite Hr in Hs. by apply contains_false_app in Hs as [Hs _].
Qed.

Lemma strip_head chs s c : head (strip chs s) = Some c → c ∉ chs.
Proof.
  unfold strip. destruct (rstrip_prefix chs (lstrip chs s)) as [r Hr].
  intros Hh. apply (lstrip_head chs s). rewrite Hr.
  destruct (rstrip chs (lstrip chs s)); [done | by simplify_eq/=].
Qed.

Lemma strip_last chs s c : last (strip chs s) = Some c → c ∉ chs.
Proof. apply rstrip_last. Qed.

Lemma strip_id chs s :
  (∀ c, head s = Some c → c ∉ chs) → (∀ c, last s = Some c → c ∉ chs) →
  strip chs s = s.
Proof. intros Hh Hl. unfold strip. rewrite lstrip_id by done. by apply rstrip_id. Qed.

End PyStrFacts.

(** ** [_clean_command_name] maps a name to a fixed point of itself *)

Section CleanFacts.
Context {A : Type} `{EqDecision A}.
Context (to_upper : A → list A) (is_alnum : A → bool) (us : A).
Implicit Types (s x : list A).

Lemma replace_uu_length s :
  length (replace_from [us; us] [us] 0 s) ≤ length s
  ∧ length (replace_from [us; us] [us] 1 s) ≤ pred (length s).
Proof.
  induction s as [|c s [IH0 IH1]]; [done|]. split; [|done].
  cbn [replace_from]. destruct (startswith _ _); simpl in *; lia.
Qed.

Lemma replace_uu_shorter s :
  contains [us; us] s = true → length (replace [us; us] [us] s) < length s.
Proof.
  unfold replace. induction s as [|c s IH]; [done|].
  cbn [contains replace_from]. destruct (startswith [us; us] (c :: s)) eqn:Hs.
  - intros _. apply startswith_spec in Hs as [r Hr]. simplify_eq/=.
    pose proof (replace_uu_length (us :: r)) as [_ Hlen]. simpl in *. lia.
  - simpl. intros Hc. apply IH in Hc. simpl. lia.
Qed.

Lemma while_collapse_done fuel s :
  length s ≤ fuel → contains [us; us] (while_collapse us fuel s) = false.
Proof.
  revert s. induction fuel as [|fuel IH]; intros s Hlen.
  - by destruct s; [|simpl in Hlen; lia].
  - simpl. destruct (contains [us; us] s) eqn:Hc; [|done].
    apply IH. apply replace_uu_shorter in Hc. lia.
Qed.

Lemma while_collapse_fuel fuel fuel' s :
  length s ≤ fuel → length s ≤ fuel' →
  while_collapse us fuel s = while_collapse us fuel' s.
Proof.
  revert fuel' s. induction fuel as [|fuel IH]; intros [|fuel'] s H1 H2;
    try done; try by (destruct s; [done | simpl in *; lia]).
  simpl. destruct (contains [us; us] s) eqn:Hc; [|done].
  apply replace_uu_shorter in Hc. apply IH; lia.
Qed.

Lemma while_collapse_absent fuel s :
  contains [us; us] s = false → while_collapse us fuel s = s.
Proof. intros Hc. destruct fuel; [done|]. simpl. by rewrite Hc. Qed.

Lemma while_collapse_Forall (P : A → Prop) fuel s :
  P us → Forall P s → Forall P (while_collapse us fuel s).
Proof.
  intros Hus. revert s. induction fuel as [|fuel IH]; intros s Hs; [done|].
  simpl. destruct (contains [us; us] s); [|done].
  apply IH. apply replace_from_Forall; [by constructor | done].
Qed.

(** The two facts about the character table that the argument uses: an
    alphanumeric character of an to_upper-cased string is its own to_upper case,
    and so is the underscore. *)
Hypothesis upper_alnum :
  ∀ c c', c' ∈ to_upper c → is_alnum c' = true → to_upper c' = [c'].
Hypothesis upper_us : to_upper us = [us].

Lemma clean_chars_settled s : Forall (settled to_upper is_alnum us) (clean_chars to_upper is_alnum us s).
Proof using upper_alnum.
  unfold clean_chars. apply strip_Forall, while_collapse_Forall; [by left|].
  apply Forall_fmap, Forall_forall. intros c' Hc'. simpl.
  apply list_elem_of_bind in Hc' as (c & Hc' & _).
  destruct (is_alnum c') eqn:Halnum; [right | by left]. eauto.
Qed.

Lemma clean_chars_fixed x :
  Forall (settled to_upper is_alnum us) x → contains [us; us] x = false →
  head x ≠ Some us → last x ≠ Some us →
  clean_chars to_upper is_alnum us x = x.
Proof using upper_us.
  intros Hx Huu Hh Hl. unfold clean_chars.
  assert (str_upper to_upper x = x) as ->.
  { unfold str_upper. clear Huu Hh Hl.
    induction Hx as [|c x [->|[_ Hc]] _ IH]; [done|..];
      rewrite bind_cons, IH; [by rewrite upper_us | by rewrite Hc]. }
  assert ((λ c, if is_alnum c then c else us) <$> x = x) as ->.
  { clear Huu Hh Hl.
    induction Hx as [|c x Hc _ IH]; [done|]. rewrite fmap_cons, IH. f_equal.
    destruct Hc as [->|[-> _]]; [by destruct (is_alnum us) | done]. }
  rewrite while_collapse_absent by done.
  apply strip_id; intros c Hc ->%list_elem_of_singleton; congruence.
Qed.

Lemma clean_chars_idempotent s :
  clean_chars to_upper is_alnum us (clean_chars to_upper is_alnum us s)
  = clean_chars to_upper is_alnum us s.
Proof using upper_alnum upper_us.
  apply clean_chars_fixed.
  - apply clean_chars_settled.
  - unfold clean_chars. apply strip_contains_false, while_collapse_done. lia.
  - intros Hh. apply strip_head in Hh. apply Hh. by left.
  - intros Hl. apply strip_last in Hl. apply Hl. by left.
Qed.

End CleanFacts.

(** The ASCII table has the two properties. *)
Lemma ascii_upper_alnum (c c' : ascii) :
  c' ∈ [ascii_upper c] → ascii_isalnum c' = true → [ascii_upper c'] = [c'].
Proof.
  intros ->%list_elem_of_singleton. revert c.
  intros [[] [] [] [] [] [] [] []]; vm_compute; congruence.
Qed.

Lemma chars_str (l : list ascii) : chars (str l) = l.
Proof. apply list_ascii_of_string_of_list_ascii. Qed.

Lemma str_chars (s : string) : str (chars s) = s.
Proof. apply string_of_list_ascii_of_string. Qed.

(** C4. Sanitizing a display name twice gives what sanitizing it once
    gives: [_clean_command_name] is idempotent on every string. *)
Theorem clean_command_name_idempotent (x : string) :
  Remote._clean_command_name (Remote._clean_command_name x)
  = Remote._clean_command_name x.
Proof.
  unfold Remote._clean_command_name. rewrite chars_str. f_equal.
  apply clean_chars_idempotent; [apply ascii_upper_alnum | done].
Qed.

(** ** The throttle guard *)

Section ThrottleFacts.
Import Remote.
Local Open Scope Q_scope.

Lemma Qltb_lt (a b : Q) : Qltb a b = true ↔ a < b.
Proof.
  unfold Qltb. rewrite negb_true_iff, <- not_true_iff_false, Qle_bool_iff.
  split; [apply Qnot_le_lt | apply Qlt_not_le].
Qed.

Lemma Qltb_ge (a b : Q) : Qltb a b = false ↔ b <= a.
Proof.
  unfold Qltb. rewrite negb_false_iff. apply Qle_bool_iff.
Qed.

(** The three ways through [_check_throttle]. *)
Lemma check_throttle_global device_id now st :
  now - _global_throttle st < 1 # 10 →
  _check_throttle device_id now st = (false, st).
Proof. intros Hg%Qltb_lt. unfold _check_throttle. by rewrite Hg. Qed.

Lemma check_throttle_device device_id now st :
  now - default 0 (_device_throttle st !! device_id) < 3 # 10 →
  _check_throttle device_id now st = (false, st).
Proof.
  intros Hd%Qltb_lt. unfold _check_throttle.
  destruct (Qltb (now - _global_throttle st) (1 # 10)); [done|].
  by rewrite Hd.
Qed.

Lemma check_throttle_pass device_id now st :
  1 # 10 <= now - _global_throttle st →
  3 # 10 <= now - default 0 (_device_throttle st !! device_id) →
  _check_throttle device_id now st
  = (true, {| _global_throttle := now;
              _device_throttle := <[device_id := now]> (_device_throttle st) |}).
Proof.
  intros Hg%Qltb_ge Hd%Qltb_ge. unfold _check_throttle. by rewrite Hg, Hd.
Qed.

Lemma check_throttle_cases device_id now st :
  (_check_throttle device_id now st = (false, st)
   ∧ (now - _global_throttle st < 1 # 10
      ∨ now - default 0 (_device_throttle st !! device_id) < 3 # 10))
  ∨ (_check_throttle device_id now st
     = (true, {| _global_throttle := now;
                 _device_throttle := <[device_id := now]> (_device_throttle st) |})
     ∧ 1 # 10 <= now - _global_throttle st
     ∧ 3 # 10 <= now - default 0 (_device_throttle st !! device_id)).
Proof.
  destruct (Qlt_le_dec (now - _global_throttle st) (1 # 10)) as [Hg|Hg].
  { left. split; [by apply check_throttle_global | by left]. }
  destruct (Qlt_le_dec (now - default 0 (_device_throttle st !! device_id)) (3 # 10))
    as [Hd|Hd].
  { left. split; [by apply check_throttle_device | by right]. }
  right. split; [by apply check_throttle_pass | done].
Qed.

End ThrottleFacts.

(** C1. [_check_throttle] returns [False] exactly when the time since the
    last command to any device is under 0.1 s or the time since the last
    command to this device is under 0.3 s; when it returns [True] it has
    stored the present time as the global and as the device's timestamp.
    After a call at [t] that returned [True], a call at [t + 0.05] returns
    [False] for the same and for any other device; and the first call made
    on a new router, at a time of 0.3 s or more, returns [True]. *)
Theorem check_throttle_spec (device_id : string) (now : Q) (st : Remote.throttle) :
  (fst (Remote._check_throttle device_id now st) = false
   ↔ (now - Remote._global_throttle st < 1 # 10
      ∨ now - default 0 (Remote._device_throttle st !! device_id) < 3 # 10)%Q)
  ∧ (fst (Remote._check_throttle device_id now st) = true
     → snd (Remote._check_throttle device_id now st)
       = {| Remote._global_throttle := now;
            Remote._device_throttle :=
              <[device_id := now]> (Remote._device_throttle st) |})
  ∧ (fst (Remote._check_throttle device_id now st) = true
     → ∀ other : string,
       fst (Remote._check_throttle device_id (now + (5 # 100))
              (snd (Remote._check_throttle device_id now st))) = false
       ∧ fst (Remote._check_throttle other (now + (5 # 100))
                (snd (Remote._check_throttle device_id now st))) = false)
  ∧ ((3 # 10 <= now)%Q
     → fst (Remote._check_throttle device_id now Remote.throttle_init) = true).
Proof.
  pose proof (check_throttle_cases device_id now st) as Hcases.
  split; [|split; [|split]].
  - destruct Hcases as [[E Hc]|[E [Hg Hd]]]; rewrite E; simpl.
    + by split.
    + split; [done|]. intros [Hc|Hc]; apply Qlt_not_le in Hc; done.
  - destruct Hcases as [[E _]|[E _]]; rewrite E; simpl; [done|]. by intros _.
  - destruct Hcases as [[E _]|[E _]]; rewrite E; simpl; [done|].
    intros _ other. rewrite !check_throttle_global; [done|simpl; lra..].
  - intros Hnow. rewrite check_throttle_pass; [done|..]; simpl.
    + lra.
    + rewrite lookup_empty. simpl. lra.
Qed.

(** From a new router: a command to ["dev1"] at time 1000 is let through,
    and a command 0.05 s later is rejected, for ["dev1"] and for ["dev2"]. *)
Lemma check_throttle_spec_witness :
  fst (Remote._check_throttle "dev1" 1000 Remote.throttle_init) = true
  ∧ fst (Remote._check_throttle "dev1" (1000 + (5 # 100)) throttle_after_dev1) = false
  ∧ fst (Remote._check_throttle "dev2" (1000 + (5 # 100)) throttle_after_dev1) = false.
Proof.
  pose proof (check_throttle_spec "dev1" 1000 Remote.throttle_init)
    as (_ & _ & Hnext & Hfirst).
  assert (fst (Remote._check_throttle "dev1" 1000 Remote.throttle_init) = true)
    as Hpass by (apply Hfirst; unfold Qle; simpl; lia).
  split; [done|]. split; [apply (Hnext Hpass "dev1") | apply (Hnext Hpass "dev2")].
Defined.

(** C10. A call of [_check_throttle] that returns [False] leaves the
    throttle state as it was: neither the global timestamp nor the
    timestamp of any device changes. *)
Theorem check_throttle_rejected_unchanged
    (device_id : string) (now : Q) (st : Remote.throttle) :
  fst (Remote._check_throttle device_id now st) = false →
  snd (Remote._check_throttle device_id now st) = st.
Proof.
  intros Hc.
  destruct (check_throttle_cases device_id now st) as [[-> _]|[Hp _]]; [done|].
  rewrite Hp in Hc. discriminate.
Qed.

(** A command to another device, 0.05 s after a command to ["dev1"], is
    rejected and changes nothing. *)
Lemma check_throttle_rejected_unchanged_witness :
  fst (Remote._check_throttle "dev2" (1000 + (5 # 100)) throttle_after_dev1) = false
  ∧ snd (Remote._check_throttle "dev2" (1000 + (5 # 100)) throttle_after_dev1)
    = throttle_after_dev1.
Proof.
  split; [reflexivity|].
  apply (check_throttle_rejected_unchanged "dev2" (1000 + (5 # 100)) throttle_after_dev1).
  reflexivity.
Defined.

(** ** The capability model *)

(** The classifier of [config.py] is the classification of the
    specification, on every attribute bag. *)
Lemma config_determine_device_type_classify (device_info : Api.device_info) :
  Config._determine_device_type device_info
  = classify (default "" (Api.model device_info)) (default "" (Api.name device_info)).
Proof.
  unfold Config._determine_device_type, classify. simpl.
  repeat (match goal with |- context [str_contains ?p ?s] =>
            destruct (str_contains p s); simpl; try reflexivity end).
Qed.

(** C6. The classifier of [client.py] does not fall back to the keywords
    ELEMENTS, CANVAS, SHAPES and LINES of the name: a device named
    "Elements Hexagons" whose model is unknown is "panels" for
    [NanoleafDevice] and "elements" for [NanoleafConfig] and for the
    classification of the specification. *)
Theorem client_determine_device_type_misses_name_keywords :
  Client.device_type
    (Client.new_device "10.0.0.5" (Some "token")
       (Some (bag_of "Elements Hexagons" "Unknown" []))) = "panels"
  ∧ Config._determine_device_type (bag_of "Elements Hexagons" "Unknown" [])
    = "elements"
  ∧ classify "Unknown" "Elements Hexagons" = "elements".
Proof. repeat split; reflexivity. Qed.

(** The two classifiers agree when the model holds a known code. *)
Lemma client_determine_device_type_model (name model : string) (family : string) :
  first_family family_codes (upper model) = Some family →
  Client._determine_device_type name model = family
  ∧ classify model name = family.
Proof.
  unfold Client._determine_device_type, classify. simpl.
  repeat (match goal with |- context [str_contains ?p ?s] =>
            destruct (str_contains p s); simpl end);
    intros; simplify_eq; done.
Qed.

(** The effects flag of a record that [add_device] stores. *)
Lemma config_supports_effects ip_address auth_token device_info port :
  Config.supports_effects
    (Config.new_device_config ip_address auth_token device_info port)
  = Some (bool_decide (Api.effects_list_of device_info ≠ [])).
Proof. simpl. by destruct (Api.effects_list_of device_info). Qed.

(** C7, as stated, fails: a descriptor built without an attribute bag has
    an empty effect list and the effects flag set. *)
Lemma supports_effects_without_bag :
  Client.effects_list (Client.new_device "10.0.0.5" (Some "token") None) = []
  ∧ Client.supports_effects (Client.new_device "10.0.0.5" (Some "token") None)
    = true.
Proof. split; reflexivity. Qed.

(** C7, amended. For a descriptor built from a non-empty attribute bag, and
    for a record stored by [add_device], the effects flag is true exactly
    when the bag advertises a non-empty effect list.  A descriptor built
    without an attribute bag, or from an empty one, has the default values
    for new devices: no effects, and the effects flag set. *)
Theorem supports_effects_iff_effects
    (ip_address : string) (auth_token : option string) (token : string)
    (port : Z) (device_info : Api.device_info) :
  let device := Client.new_device ip_address auth_token (Some device_info) in
  let blank := Client.new_device ip_address auth_token None in
  (Api.nonempty device_info = true →
   Client.effects_list device = Api.effects_list_of device_info
   ∧ (Client.supports_effects device = true ↔ Client.effects_list device ≠ []))
  ∧ (Api.nonempty device_info = false →
     Client.effects_list device = [] ∧ Client.supports_effects device = true)
  ∧ (Client.effects_list blank = [] ∧ Client.supports_effects blank = true)
  ∧ (Config.supports_effects
       (Config.new_device_config ip_address token device_info port) = Some true
     ↔ Api.effects_list_of device_info ≠ []).
Proof.
  intros device blank. subst device blank. unfold Client.new_device.
  split; [|split; [|split]].
  - intros ->. simpl. by destruct (Api.effects_list_of device_info).
  - by intros ->.
  - done.
  - rewrite config_supports_effects.
    destruct (Api.effects_list_of device_info); simpl; split; done.
Qed.

(** A bag that advertises one effect gives a descriptor with the effects
    flag set. *)
Lemma supports_effects_iff_effects_witness :
  Api.nonempty (bag_of "Desk" "NL42" ["Flames"]) = true
  ∧ Client.supports_effects
      (Client.new_device "10.0.0.5" (Some "token")
         (Some (bag_of "Desk" "NL42" ["Flames"]))) = true.
Proof.
  split; [reflexivity|].
  pose proof (supports_effects_iff_effects "10.0.0.5" (Some "token") "token" 16021
                (bag_of "Desk" "NL42" ["Flames"])) as [Hbag _].
  destruct (Hbag eq_refl) as [Hlist Hflag]. apply Hflag. rewrite Hlist.
  discriminate.
Defined.

(** ** The command vocabulary *)

Section VocabularyFacts.
Import Remote.

Lemma chars_app (a b : string) : chars (a +:+ b) = chars a ++ chars b.
Proof. induction a as [|c a IH]; [done|]. simpl. by rewrite <- IH. Qed.

Lemma chars_length (s : string) : length (chars s) = String.length s.
Proof. induction s as [|c s IH]; [done|]. simpl. by rewrite <- IH. Qed.

(** A string that ends with [suffix] is known from its end. *)
Lemma append_inv (c suffix token : string) :
  c +:+ suffix = token →
  c = str (take (String.length token - String.length suffix) (chars token))
  ∧ suffix = str (drop (String.length token - String.length suffix) (chars token)).
Proof.
  intros <-. rewrite chars_app, <- !chars_length, chars_app, length_app.
  replace (length (chars c) + length (chars suffix) - length (chars suffix))
    with (length (chars c)) by lia.
  rewrite take_app_length, drop_app_length. by rewrite !str_chars.
Qed.

Lemma append_contains (c infix rest token : string) :
  c +:+ infix +:+ rest = token → str_contains infix token = true.
Proof.
  intros <-. unfold str_contains. rewrite !chars_app. apply contains_spec. eauto.
Qed.

Lemma fixed_suffix_fleet (c suffix t : string) :
  c +:+ suffix = t → t ∈ fleet_tokens → suffix ∈ fixed_suffixes → c = "ALL".
Proof.
  intros Ht Hfleet Hsuffix. apply append_inv in Ht as [Hc Hs].
  unfold fleet_tokens in Hfleet. unfold fixed_suffixes in Hsuffix.
  repeat (apply elem_of_cons in Hfleet as [->|Hfleet]);
    [..|by apply elem_of_nil in Hfleet];
    repeat (apply elem_of_cons in Hsuffix as [->|Hsuffix]);
    try (by apply elem_of_nil in Hsuffix); by vm_compute in Hs, Hc.
Qed.

Lemma effect_command_not_fleet (c e t : string) :
  c +:+ "_EFFECT_" +:+ e = t → t ∉ fleet_tokens.
Proof.
  intros Ht%append_contains Hfleet. unfold fleet_tokens in Hfleet.
  repeat (apply elem_of_cons in Hfleet as [->|Hfleet]);
    [..|by apply elem_of_nil in Hfleet]; by vm_compute in Ht.
Qed.

(** The shape of the commands of one device. *)
Lemma device_commands_shape device_id device_info t :
  t ∈ device_commands device_id device_info →
  (∃ suffix, suffix ∈ fixed_suffixes
     ∧ t = _clean_command_name (device_name_of device_id device_info) +:+ suffix)
  ∨ (∃ e, t = _clean_command_name (device_name_of device_id device_info)
              +:+ "_EFFECT_" +:+ e).
Proof.
  unfold device_commands, effect_commands.
  generalize (_clean_command_name (device_name_of device_id device_info)).
  intros c Hin. rewrite !elem_of_app in Hin.
  destruct Hin as [Hin|[Hin|[Hin|[Hin|[Hin|Hin]]]]].
  5: { right. destruct (default true _); [|by apply elem_of_nil in Hin].
       apply list_elem_of_fmap in Hin as (e & -> & _). eauto. }
  2: destruct (default true (Config.supports_brightness device_info));
       [|by apply elem_of_nil in Hin].
  3: destruct (default true (Config.supports_color device_info));
       [|by apply elem_of_nil in Hin].
  4: destruct (default true (Config.supports_color_temp device_info));
       [|by apply elem_of_nil in Hin].
  all: left; repeat (apply elem_of_cons in Hin as [->|Hin]);
    [..|by apply elem_of_nil in Hin];
    (eexists; split; [|reflexivity]); apply (bool_decide_unpack _); vm_compute;
    exact I.
Qed.

(** A command of [device_commands] is a fleet token only for a device
    whose sanitized name is ALL. *)
Lemma device_command_fleet device_id device_info t :
  t ∈ device_commands device_id device_info → t ∈ fleet_tokens →
  _clean_command_name (device_name_of device_id device_info) = "ALL".
Proof.
  intros [(suffix & Hsuffix & ->)|(e & ->)]%device_commands_shape Hfleet.
  - by eapply fixed_suffix_fleet.
  - by destruct (effect_command_not_fleet _ _ _ eq_refl Hfleet).
Qed.

Lemma generate_simple_commands_elem devices t :
  devices ≠ [] →
  t ∈ _generate_simple_commands devices ↔ t ∈ collected_commands devices.
Proof.
  intros Hne. destruct devices as [|device devices]; [done|].
  unfold _generate_simple_commands.
  by rewrite merge_sort_Permutation, elem_of_remove_dups.
Qed.

Lemma effect_commands_length clean_name device_info :
  length (effect_commands clean_name device_info) ≤ 10.
Proof.
  unfold effect_commands. destruct (default true _); simpl; [|lia].
  rewrite length_fmap, length_take. lia.
Qed.

End VocabularyFacts.

(** C5, as stated, fails: the vocabulary of the single device named "All"
    holds the four fleet tokens, which are the power and identify commands
    of that device. *)
Lemma fleet_tokens_of_one_device_named_all :
  length one_device_named_all = 1%nat
  ∧ "ALL_ON" ∈ Remote._generate_simple_commands one_device_named_all
  ∧ "ALL_OFF" ∈ Remote._generate_simple_commands one_device_named_all
  ∧ "ALL_TOGGLE" ∈ Remote._generate_simple_commands one_device_named_all
  ∧ "ALL_IDENTIFY" ∈ Remote._generate_simple_commands one_device_named_all.
Proof. split_and!; [done|..]; apply (bool_decide_unpack _); vm_compute; exact I. Qed.

(** The power and identify commands of a device whose sanitized name is ALL
    are the four fleet tokens. *)
Lemma device_commands_named_all device_id device_info t :
  Remote._clean_command_name (Remote.device_name_of device_id device_info) = "ALL" →
  t ∈ Remote.fleet_tokens → t ∈ Remote.device_commands device_id device_info.
Proof.
  intros Hname Hfleet. unfold Remote.device_commands. rewrite Hname.
  unfold Remote.fleet_tokens in Hfleet.
  repeat (apply elem_of_cons in Hfleet as [->|Hfleet]);
    [..|by apply elem_of_nil in Hfleet].
  - apply elem_of_app. left. apply (bool_decide_unpack _). vm_compute. exact I.
  - apply elem_of_app. left. apply (bool_decide_unpack _). vm_compute. exact I.
  - apply elem_of_app. left. apply (bool_decide_unpack _). vm_compute. exact I.
  - rewrite !elem_of_app. do 5 right. apply list_elem_of_singleton. reflexivity.
Qed.

(** C5, amended. A fleet token is in the vocabulary exactly when there are
    two devices or more, or a device has the sanitized name ALL (the token
    is then a command of that device).  So the vocabulary of two devices or
    more holds the four fleet tokens whatever the names, and the vocabulary
    of one device holds none of them unless the sanitized name of that
    device is ALL; and the loop appends at most 10 effect commands for a
    device. *)
Theorem fleet_tokens_iff_two_devices (devices : Config.devices) (t : string) :
  t ∈ Remote.fleet_tokens →
  (t ∈ Remote._generate_simple_commands devices
   ↔ 2 ≤ length devices
     ∨ ∃ device_id device_info, (device_id, device_info) ∈ devices
         ∧ Remote._clean_command_name
             (Remote.device_name_of device_id device_info) = "ALL")
  ∧ ((length devices = 1 →
      ∀ device_id device_info, (device_id, device_info) ∈ devices →
        Remote._clean_command_name (Remote.device_name_of device_id device_info)
        ≠ "ALL") →
     (t ∈ Remote._generate_simple_commands devices ↔ 2 ≤ length devices))
  ∧ (∀ device_id device_info, (device_id, device_info) ∈ devices →
       length (Remote.effect_commands
                 (Remote._clean_command_name
                    (Remote.device_name_of device_id device_info))
                 device_info) ≤ 10).
Proof.
  intros Hfleet.
  assert (t ∈ Remote._generate_simple_commands devices
          ↔ 2 ≤ length devices
            ∨ ∃ device_id device_info, (device_id, device_info) ∈ devices
                ∧ Remote._clean_command_name
                    (Remote.device_name_of device_id device_info) = "ALL")
    as Hexact.
  { destruct devices as [|device devices].
    { simpl. rewrite list_elem_of_singleton. split.
      - intros ->. apply (bool_decide_pack _) in Hfleet. vm_compute in Hfleet. done.
      - intros [?|(? & ? & []%elem_of_nil & _)]. lia. }
    rewrite generate_simple_commands_elem by done.
    unfold Remote.collected_commands. rewrite elem_of_app, list_elem_of_bind. split.
    - intros [([device_id device_info] & Hin & Hdev)|Hin].
      + right. exists device_id, device_info. split; [done|].
        by apply (device_command_fleet device_id device_info t).
      + left. destruct (1 <? length (device :: devices))%nat eqn:Hlen;
          [by apply Nat.ltb_lt in Hlen | by apply elem_of_nil in Hin].
    - intros [Hlen%Nat.ltb_lt|(device_id & device_info & Hdev & Hname)].
      + right. by rewrite Hlen.
      + left. exists (device_id, device_info). split; [|done].
        by apply device_commands_named_all. }
  split; [done|]. split; [|intros; apply effect_commands_length].
  intros Hnames. rewrite Hexact. split; [|by left].
  intros [Hlen|(device_id & device_info & Hdev & Hname)]; [done|].
  destruct (decide (length devices = 1)) as [Hone|Hmore].
  - by destruct (Hnames Hone _ _ Hdev).
  - destruct devices as [|? [|? ?]]; simpl in *; [by apply elem_of_nil in Hdev|done|lia].
Qed.

(** Two devices: ALL_ON is in the vocabulary.  One device named "Desk":
    it is not.  One device named "All": it is. *)
Lemma fleet_tokens_iff_two_devices_witness :
  "ALL_ON" ∈ Remote._generate_simple_commands desk_and_wall
  ∧ ("ALL_ON" ∉ Remote._generate_simple_commands [("desk", device_named "Desk" [])])
  ∧ ("ALL_ON" ∈ Remote._generate_simple_commands [("all", device_named "All" [])]).
Proof.
  assert ("ALL_ON" ∈ Remote.fleet_tokens) as Hfleet
    by (apply (bool_decide_unpack _); vm_compute; exact I).
  split; [|split].
  - pose proof (fleet_tokens_iff_two_devices desk_and_wall "ALL_ON" Hfleet)
      as [Hexact _].
    apply Hexact. left. simpl. lia.
  - intros Hin.
    pose proof (fleet_tokens_iff_two_devices [("desk", device_named "Desk" [])]
                  "ALL_ON" Hfleet) as (_ & Hone & _).
    apply Hone in Hin; [simpl in Hin; lia|].
    intros _ device_id device_info [= -> ->]%list_elem_of_singleton.
    by vm_compute.
  - pose proof (fleet_tokens_iff_two_devices [("all", device_named "All" [])]
                  "ALL_ON" Hfleet) as [Hexact _].
    apply Hexact. right. exists "all", (device_named "All" []).
    split; [by left | by vm_compute].
Defined.

(** ** Fleet commands *)

Section FleetFacts.
Import Remote.
Context (the_client : client).
Implicit Types (devices : Config.devices) (w : world).

Lemma try_except_false_returns (body : M bool) w :
  ∃ b w', try_except body (mret false) w = (Ret b, w').
Proof. unfold try_except. destruct (body w) as [[b|] w']; eauto. Qed.

(** What a device raises stays in its own task. *)
Lemma execute_device_action_safe_returns devices device_id action w :
  ∃ b w', _execute_device_action_safe the_client devices device_id action w
          = (Ret b, w').
Proof. apply try_except_false_returns. Qed.

Lemma gather_length (tasks : list (M bool)) w :
  length (gather tasks w).1 = length tasks.
Proof.
  revert w. induction tasks as [|task tasks IH]; intros w; [done|]. simpl.
  destruct (task w) as [result w1]. specialize (IH w1).
  destruct (gather tasks w1) as [results w2]. simpl in *. by rewrite IH.
Qed.

Lemma gather_Forall (P : outcome bool → Prop) (tasks : list (M bool)) w :
  Forall (λ task, ∀ w1, P (task w1).1) tasks → Forall P (gather tasks w).1.
Proof.
  intros Htasks. revert w.
  induction Htasks as [|task tasks Htask _ IH]; intros w; [by constructor|].
  simpl. specialize (Htask w). destruct (task w) as [result w1].
  specialize (IH w1). destruct (gather tasks w1) as [results w2].
  by constructor.
Qed.

Lemma success_count_pos (results : list (outcome bool)) :
  (0 <? success_count results)%nat = true ↔ Ret true ∈ results.
Proof.
  rewrite Nat.ltb_lt. induction results as [|[[]|] results IH]; simpl;
    rewrite ?elem_of_cons.
  - split; [lia | by intros ?%elem_of_nil].
  - split; [by left | lia].
  - rewrite IH. split; [by right | by intros [?|?]].
  - rewrite IH. split; [by right | by intros [?|?]].
Qed.

Lemma global_action_fleet command :
  command ∈ fleet_tokens → ∃ action, global_action command = Some action.
Proof.
  unfold fleet_tokens. intros Hin.
  repeat (apply elem_of_cons in Hin as [->|Hin]); [..|by apply elem_of_nil in Hin];
    by eexists.
Qed.

Lemma global_action_unknown command :
  command ∉ fleet_tokens → global_action command = None.
Proof.
  unfold fleet_tokens, global_action. rewrite !elem_of_cons, elem_of_nil.
  intros Hin. repeat case_bool_decide; tauto.
Qed.

Lemma global_tasks_known devices command action :
  global_action command = Some action →
  global_tasks devices command = (λ device, (device.1, action)) <$> devices.
Proof.
  intros Haction. unfold global_tasks. rewrite Haction.
  induction devices as [|[device_id device_info] devices IH]; [done|].
  rewrite bind_cons, IH. done.
Qed.

Lemma global_tasks_unknown devices command :
  global_action command = None → global_tasks devices command = [].
Proof.
  intros Haction. unfold global_tasks. rewrite Haction.
  induction devices as [|[device_id device_info] devices IH]; [done|].
  by rewrite bind_cons, IH.
Qed.

Lemma execute_global_command_known devices command action w :
  devices ≠ [] → global_action command = Some action →
  _execute_global_command the_client devices command w
  = (Ret (0 <? success_count (gather (fleet_tasks the_client devices action) w).1)%nat,
     (gather (fleet_tasks the_client devices action) w).2).
Proof.
  intros Hne Haction. unfold _execute_global_command.
  rewrite (global_tasks_known _ _ _ Haction).
  assert ((λ '(device_id, action'),
             _execute_device_action_safe the_client devices device_id action')
            <$> ((λ device, (device.1, action)) <$> devices)
          = fleet_tasks the_client devices action) as Htasks.
  { rewrite <- list_fmap_compose. apply list_fmap_ext. by intros ? []. }
  destruct (_ <$> devices) as [|task tasks] eqn:E; [by destruct devices|].
  rewrite Htasks. by destruct (gather _ w).
Qed.

Lemma execute_nanoleaf_command_global devices command now w :
  devices ≠ [] → str_startswith command "ALL_" = true →
  _execute_nanoleaf_command the_client devices command now w
  = _execute_global_command the_client devices command w.
Proof.
  intros Hne Hall. unfold _execute_nanoleaf_command, try_except.
  rewrite (bool_decide_eq_false_2 _ Hne).
  case_bool_decide as Hcmd; [by subst|]. simpl. rewrite Hall.
  unfold _execute_global_command.
  destruct (global_tasks devices command); [done|].
  by destruct (gather _ w).
Qed.

End FleetFacts.

(** C2, as stated, fails: ["ALL_LIGHTS_ON"], the power-on command of the
    device named "All Lights", starts with [ALL_]; it is taken for a fleet
    command, found unknown, and no device is called, although every call
    would succeed. *)
Lemma fleet_prefix_reaches_no_device :
  "ALL_LIGHTS_ON" ∈ Remote._generate_simple_commands one_device_named_all_lights
  ∧ str_startswith "ALL_LIGHTS_ON" "ALL_" = true
  ∧ one_device_named_all_lights ≠ []
  ∧ Remote._execute_nanoleaf_command always_succeeds one_device_named_all_lights
      "ALL_LIGHTS_ON" 1000 world_init
    = (Ret false, world_init).
Proof.
  split_and!; [|done|done|].
  - apply (bool_decide_unpack _). vm_compute. exact I.
  - vm_compute. reflexivity.
Qed.

(** C2, amended. Against a non-empty device set, each of ALL_ON, ALL_OFF,
    ALL_TOGGLE and ALL_IDENTIFY runs its action once for every device, in
    the order of the devices; every run returns a truth value (what a run
    raises is caught in that run and counts as a failure), and the command
    succeeds exactly when one of the runs returned [True].  Any other
    token that starts with [ALL_] calls no device and fails. *)
Theorem fleet_command_partial_success
    (the_client : Remote.client) (devices : Config.devices) (command : string)
    (now : Q) (w : Remote.world) :
  devices ≠ [] → str_startswith command "ALL_" = true →
  (command ∈ Remote.fleet_tokens →
   ∃ action, Remote.global_action command = Some action ∧
     let run := Remote.gather (fleet_tasks the_client devices action) w in
     length run.1 = length devices
     ∧ Forall (λ result, ∃ b : bool, result = Ret b) run.1
     ∧ ∃ ok, Remote._execute_nanoleaf_command the_client devices command now w
             = (Ret ok, run.2)
             ∧ (ok = true ↔ Ret true ∈ run.1))
  ∧ (command ∉ Remote.fleet_tokens →
     Remote._execute_nanoleaf_command the_client devices command now w
     = (Ret false, w)).
Proof.
  intros Hne Hall. rewrite execute_nanoleaf_command_global by done. split.
  - intros [action Haction]%global_action_fleet. exists action.
    split; [done|]. intros run. split_and!.
    + subst run. rewrite gather_length. unfold fleet_tasks. by rewrite length_fmap.
    + apply gather_Forall. unfold fleet_tasks. apply Forall_fmap, Forall_forall.
      intros [device_id device_info] _ w1. simpl.
      destruct (execute_device_action_safe_returns the_client devices device_id
                  action w1) as (b & w' & ->). by exists b.
    + eexists. split; [by apply execute_global_command_known|].
      apply success_count_pos.
  - intros Haction%global_action_unknown. unfold Remote._execute_global_command.
    by rewrite global_tasks_unknown.
Qed.

Lemma fleet_command_partial_success_witness :
  ∃ action, Remote.global_action "ALL_ON" = Some action ∧
    let run := Remote.gather (fleet_tasks second_device_fails three_devices action)
                 world_init in
    length run.1 = length three_devices
    ∧ Forall (λ result, ∃ b : bool, result = Ret b) run.1
    ∧ ∃ ok, Remote._execute_nanoleaf_command second_device_fails three_devices
              "ALL_ON" 1000 world_init = (Ret ok, run.2)
            ∧ (ok = true ↔ Ret true ∈ run.1).
Proof.
  apply (fleet_command_partial_success second_device_fails three_devices "ALL_ON"
           1000 world_init); [done | reflexivity |].
  apply (bool_decide_unpack _). vm_compute. exact I.
Defined.

(** ALL_ON against three devices of which the second fails: the command
    succeeds, all three devices were called, and the two that answered are
    recorded as on. *)
Example all_on_one_of_three_fails :
  let run := Remote._execute_nanoleaf_command second_device_fails three_devices
               "ALL_ON" 1000 world_init in
  run.1 = Ret true
  ∧ Remote.calls run.2
    = (λ device, Remote.TurnOn (Remote.device_of device.2)) <$> three_devices
  ∧ Remote._device_states run.2 !! "10_0_0_1_16021" = Some true
  ∧ Remote._device_states run.2 !! "10_0_0_2_16021" = None
  ∧ Remote._device_states run.2 !! "10_0_0_3_16021" = Some true
  ∧ (Remote.gather (fleet_tasks second_device_fails three_devices "turn_on")
       world_init).1 = [Ret true; Ret false; Ret true].
Proof. cbv zeta. split_and!; vm_compute; reflexivity. Qed.

(** ** Temperature actions *)

Section ActionFacts.
Import Remote.
Context (the_client : client).

Lemma body_color_warm self device device_info device_id :
  execute_device_action_body the_client self device "COLOR_WARM" device_info device_id
  = set_color the_client device 30 50.
Proof. reflexivity. Qed.

Lemma body_color_cool self device device_info device_id :
  execute_device_action_body the_client self device "COLOR_COOL" device_info device_id
  = set_color the_client device 210 30.
Proof. reflexivity. Qed.

Lemma try_except_false_twice (body : M bool) w :
  try_except (try_except body (mret false)) (mret false) w
  = try_except body (mret false) w.
Proof. unfold try_except. by destruct (body w) as [[b|] w']. Qed.

(** The recursion of [_execute_device_action]: the method is its body
    applied to itself. *)
Lemma _execute_device_action_unfold device action device_info device_id :
  _execute_device_action the_client device action device_info device_id
  = execute_device_action_body the_client
      (λ color_action,
         _execute_device_action the_client device color_action device_info device_id)
      device action device_info device_id.
Proof.
  unfold _execute_device_action, execute_device_action_body at 1 3.
  f_equal.
  repeat (match goal with
          | |- (if ?b then _ else _) = (if ?b then _ else _) => destruct b
          end; try reflexivity).
  unfold elements_color_action.
  repeat (match goal with
          | |- context [if ?b then _ else _] => destruct b
          end; try reflexivity).
Qed.

(** A temperature action on an Elements device runs the method again with
    a color action. *)
Lemma execute_temp_elements device action color_action device_info device_id w :
  default "" (Config.device_type device_info) = "elements" →
  str_startswith action "TEMP_" = true →
  action ∈ ["TEMP_WARM"; "TEMP_COOL"; "TEMP_2700K"; "TEMP_4000K"; "TEMP_6500K"] →
  elements_color_action action = Some color_action →
  color_action ∈ ["COLOR_WARM"; "COLOR_COOL"] →
  _execute_device_action the_client device action device_info device_id w
  = _execute_device_action the_client device color_action device_info device_id w.
Proof.
  intros Htype _ Haction Hcolor Hin.
  rewrite (_execute_device_action_unfold device action).
  assert (execute_device_action_body the_client
            (λ color_action,
               _execute_device_action the_client device color_action device_info
                 device_id) device action device_info device_id
          = try_except
              (_execute_device_action the_client device color_action device_info
                 device_id) (mret false)) as ->.
  { repeat (apply elem_of_cons in Haction as [->|Haction]);
      [..|by apply elem_of_nil in Haction];
      unfold execute_device_action_body; cbv zeta; rewrite Htype;
      vm_compute in Hcolor; simplify_eq; reflexivity. }
  repeat (apply elem_of_cons in Hin as [->|Hin]); [..|by apply elem_of_nil in Hin];
    unfold _execute_device_action;
    rewrite ?body_color_warm, ?body_color_cool; apply try_except_false_twice.
Qed.

(** A temperature action on any other device sets the temperature. *)
Lemma execute_temp_kelvin device temp_name kelvin device_info device_id :
  default "" (Config.device_type device_info) ≠ "elements" →
  (temp_name, kelvin) ∈ temp_map →
  _execute_device_action the_client device ("TEMP_" +:+ temp_name) device_info
    device_id
  = set_temperature the_client device kelvin.
Proof.
  intros Htype Hin. unfold temp_map in Hin.
  repeat (apply elem_of_cons in Hin as [[= -> ->]|Hin]);
    [..|by apply elem_of_nil in Hin];
    unfold _execute_device_action, execute_device_action_body; cbv zeta;
    rewrite (bool_decide_eq_false_2 _ Htype); reflexivity.
Qed.

End ActionFacts.

(** C8. On a device whose stored type is "elements", TEMP_WARM and
    TEMP_2700K do what COLOR_WARM does, and TEMP_COOL, TEMP_4000K and
    TEMP_6500K do what COLOR_COOL does: the same result, the same calls to
    the device, the same state afterwards.  On a device of any other type
    the temperature actions set the temperature to 2700 K (WARM, 2700K),
    4000 K (4000K) and 6500 K (COOL, 6500K). *)
Theorem temperature_actions
    (the_client : Remote.client) (device : Client.NanoleafDevice)
    (device_info : Config.device_config) (device_id : option string)
    (w : Remote.world) :
  let execute action :=
    Remote._execute_device_action the_client device action device_info device_id w in
  (default "" (Config.device_type device_info) = "elements" →
   execute "TEMP_WARM" = execute "COLOR_WARM"
   ∧ execute "TEMP_2700K" = execute "COLOR_WARM"
   ∧ execute "TEMP_COOL" = execute "COLOR_COOL"
   ∧ execute "TEMP_4000K" = execute "COLOR_COOL"
   ∧ execute "TEMP_6500K" = execute "COLOR_COOL"
   ∧ execute "COLOR_WARM" = set_color the_client device 30 50 w
   ∧ execute "COLOR_COOL" = set_color the_client device 210 30 w)
  ∧ (default "" (Config.device_type device_info) ≠ "elements" →
     execute "TEMP_WARM" = set_temperature the_client device 2700 w
     ∧ execute "TEMP_COOL" = set_temperature the_client device 6500 w
     ∧ execute "TEMP_2700K" = set_temperature the_client device 2700 w
     ∧ execute "TEMP_4000K" = set_temperature the_client device 4000 w
     ∧ execute "TEMP_6500K" = set_temperature the_client device 6500 w).
Proof.
  intros execute. subst execute. split; intros Htype.
  - split_and!; try (apply execute_temp_elements; try done;
      apply (bool_decide_unpack _); vm_compute; exact I); reflexivity.
  - split_and!;
      [rewrite (execute_temp_kelvin the_client device "WARM" 2700)
      |rewrite (execute_temp_kelvin the_client device "COOL" 6500)
      |rewrite (execute_temp_kelvin the_client device "2700K" 2700)
      |rewrite (execute_temp_kelvin the_client device "4000K" 4000)
      |rewrite (execute_temp_kelvin the_client device "6500K" 6500)];
      try done; apply (bool_decide_unpack _); vm_compute; exact I.
Qed.

Lemma temperature_actions_witness :
  Remote._execute_device_action always_succeeds (Remote.device_of elements_device)
    "TEMP_WARM" elements_device (Some "10_0_0_4_16021") world_init
  = Remote._execute_device_action always_succeeds (Remote.device_of elements_device)
      "COLOR_WARM" elements_device (Some "10_0_0_4_16021") world_init.
Proof.
  apply (temperature_actions always_succeeds (Remote.device_of elements_device)
           elements_device (Some "10_0_0_4_16021") world_init).
  reflexivity.
Defined.

(** TEMP_WARM on an Elements device sets hue 30 and saturation 50; on a
    Light Panels device it sets 2700 K. *)
Example temp_warm_calls :
  Remote.calls
    (Remote._execute_device_action always_succeeds (Remote.device_of elements_device)
       "TEMP_WARM" elements_device (Some "10_0_0_4_16021") world_init).2
  = [Remote.SetHue (Remote.device_of elements_device) 30;
     Remote.SetSaturation (Remote.device_of elements_device) 50]
  ∧ Remote.calls
      (Remote._execute_device_action always_succeeds (Remote.device_of panels_device)
         "TEMP_WARM" panels_device (Some "10_0_0_1_16021") world_init).2
    = [Remote.SetColorTemperature (Remote.device_of panels_device) 2700].
Proof. split; vm_compute; reflexivity. Qed.

(** ** The setup flow *)

Section SetupFacts.
Import Setup.
Context (env : environment).

Lemma dict_set_nonempty {V : Type} (k : string) (v : V) (d : list (string * V)) :
  dict_set k v d ≠ [].
Proof. destruct d as [|[k' v'] d]; simpl; [done|]. by case_bool_decide. Qed.

Lemma with_config_same st : with_config (config st) st = st.
Proof. by destruct st. Qed.

Lemma resolved_within_spec address :
  resolved_within 30 (resolves_after env address) = true ↔ resolves_in_time env address.
Proof.
  unfold resolves_in_time, resolved_within.
  destruct (resolves_after env address) as [t|].
  - rewrite Qle_bool_iff. split; [eauto | by intros (? & [= <-] & ?)].
  - split; [done | by intros (? & ? & ?)].
Qed.

Lemma gather_within_spec selected :
  (Forall (resolves_in_time env) selected →
   gather_within env 30 selected = Some (attempts env selected))
  ∧ (¬ Forall (resolves_in_time env) selected → gather_within env 30 selected = None).
Proof.
  unfold gather_within.
  destruct (forallb _ selected) eqn:Hall.
  - split; [done|]. intros []. apply Forall_forall. intros address Hin.
    apply resolved_within_spec. rewrite forallb_forall in Hall.
    by apply Hall, list_elem_of_In.
  - split; [|done]. intros Hres. apply not_true_iff_false in Hall. destruct Hall.
    apply forallb_forall. intros address Hin%list_elem_of_In.
    apply resolved_within_spec. by eapply Forall_forall in Hres.
Qed.

(** The loop over the results leaves the configuration alone when no
    attempt paired, and leaves a device in it when one did. *)
Lemma process_results_none selected cfg successful failed :
  existsb paired (attempts env selected) = false →
  ∃ failed',
    process_results selected (attempts env selected) (cfg, successful, failed)
    = (cfg, successful, failed').
Proof.
  revert failed. induction selected as [|[ip_address port] selected IH];
    intros failed Hnone; [by eexists|].
  simpl in *. apply orb_false_iff in Hnone as [Hfirst Hrest].
  destruct (_pair_device_async env ip_address port) as [[[? ?]|]|];
    [done|by apply IH..].
Qed.

Lemma process_results_keeps selected results cfg successful failed :
  cfg ≠ [] → successful ≠ [] →
  (process_results selected results (cfg, successful, failed)).1.1 ≠ []
  ∧ (process_results selected results (cfg, successful, failed)).1.2 ≠ [].
Proof.
  revert results cfg successful failed.
  induction selected as [|[ip_address port] selected IH];
    intros [|result results] cfg successful failed Hcfg Hsucc; try done.
  simpl. destruct result as [[[auth_token device_info]|]|]; try by apply IH.
  apply IH; [apply dict_set_nonempty | by destruct successful].
Qed.

Lemma process_results_some selected cfg successful failed :
  existsb paired (attempts env selected) = true →
  (process_results selected (attempts env selected) (cfg, successful, failed)).1.1 ≠ []
  ∧ (process_results selected (attempts env selected) (cfg, successful, failed)).1.2 ≠ [].
Proof.
  revert cfg successful failed.
  induction selected as [|[ip_address port] selected IH];
    intros cfg successful failed Hsome; [done|].
  simpl in *.
  destruct (_pair_device_async env ip_address port) as [[[auth_token device_info]|]|];
    simpl in Hsome; try by apply IH.
  apply process_results_keeps; [apply dict_set_nonempty | by destruct successful].
Qed.

Lemma complete_breakthrough_setup_nonempty st :
  config st ≠ [] →
  _complete_breakthrough_setup env st
  = match _setup_complete_callback env (config st) with
    | Ret _ => SetupComplete
    | Raise => SetupError OTHER
    end.
Proof. unfold _complete_breakthrough_setup. by destruct (config st). Qed.

End SetupFacts.

(** C3. If the pairing of a selected candidate has not resolved when the
    deadline of 30 s elapses, the pairing ends in the error TIMEOUT and the
    configuration is what it was, whatever the other attempts returned.
    If every attempt resolves by the deadline: when no attempt paired, the
    pairing ends in the error OTHER and the configuration is what it was;
    when one paired, the configuration holds a device and the completion
    step runs, which gives SetupComplete unless the completion callback
    raises.  So, the callback returning, the setup completes exactly when
    one candidate paired. *)
Theorem pairing_deadline_and_partial_success
    (env : Setup.environment) (st : Setup.session) :
  let selected := Setup._selected_devices st in
  let run := Setup._execute_simultaneous_pairing env st in
  (¬ Forall (resolves_in_time env) selected → run = (Setup.SetupError Setup.TIMEOUT, st))
  ∧ (Forall (resolves_in_time env) selected →
     (existsb paired (attempts env selected) = false →
      run = (Setup.SetupError Setup.OTHER, st))
     ∧ (existsb paired (attempts env selected) = true →
        Setup.config run.2 ≠ []
        ∧ run.1 = match Setup._setup_complete_callback env (Setup.config run.2) with
                  | Ret _ => Setup.SetupComplete
                  | Raise => Setup.SetupError Setup.OTHER
                  end)
     ∧ ((∃ u, Setup._setup_complete_callback env (Setup.config run.2) = Ret u) →
        run.1 = Setup.SetupComplete ↔ existsb paired (attempts env selected) = true)).
Proof.
  intros selected run. subst selected run.
  unfold Setup._execute_simultaneous_pairing.
  destruct (gather_within_spec env (Setup._selected_devices st)) as [Hin Hout].
  split; [intros Hlate; by rewrite Hout|].
  intros Hres. rewrite (Hin Hres). fold (attempts env (Setup._selected_devices st)).
  destruct (existsb paired (attempts env (Setup._selected_devices st))) eqn:Hpaired.
  - pose proof (process_results_some env (Setup._selected_devices st)
                  (Setup.config st) [] [] Hpaired) as [Hcfg Hsucc].
    destruct (Setup.process_results _ _ _) as [[cfg successful] failed].
    simpl in Hcfg, Hsucc. destruct successful as [|ip successful]; [done|].
    simpl. rewrite complete_breakthrough_setup_nonempty by done. simpl.
    split_and!; try done. intros [u ->]. done.
  - destruct (process_results_none env (Setup._selected_devices st)
                (Setup.config st) [] [] Hpaired) as [failed' ->].
    rewrite with_config_same. simpl. split_and!; done.
Qed.

Lemma pairing_deadline_and_partial_success_witness :
  Setup._execute_simultaneous_pairing (pairing_env ["10.0.0.3"] []) pairing_session
  = (Setup.SetupError Setup.TIMEOUT, pairing_session).
Proof.
  apply (pairing_deadline_and_partial_success (pairing_env ["10.0.0.3"] [])
           pairing_session).
  intros Hall. unfold pairing_session, three_candidates in Hall. simpl in Hall.
  apply Forall_cons in Hall as [_ Hall]. apply Forall_cons in Hall as [_ Hall].
  apply Forall_cons in Hall as [(t & Ht & _) _]. vm_compute in Ht. discriminate.
Defined.

(** Two candidates pair and the third is not in pairing mode, all within
    the deadline: the setup completes with two devices stored. *)
Example two_of_three_pair :
  let run := Setup._execute_simultaneous_pairing (pairing_env [] ["10.0.0.2"])
               pairing_session in
  run.1 = Setup.SetupComplete
  ∧ (Setup.config run.2).*1 = ["10_0_0_1_16021"; "10_0_0_3_16021"].
Proof. vm_compute. split; reflexivity. Qed.

(** A value read with [.get(key, False)] is true when the key is present
    and its string is not empty. *)
Lemma truthy_spec (value : option string) :
  truthy value = true ↔ ∃ v, value = Some v ∧ v ≠ "".
Proof.
  destruct value as [v|]; simpl.
  - rewrite negb_true_iff, bool_decide_eq_false. split; [eauto | by intros (? & [= <-] & ?)].
  - split; [done | by intros (? & ? & ?)].
Qed.

Lemma truthy_false_spec (value : option string) :
  truthy value = false ↔ value = None ∨ value = Some "".
Proof.
  destruct value as [v|]; simpl.
  - rewrite negb_false_iff, bool_decide_eq_true. split; [intros ->; by right|].
    by intros [?|[= ->]].
  - split; [by left | done].
Qed.





(** When the checkbox of each of the first three candidates holds a
    non-empty string, the loop keeps the first three candidates. *)
Lemma selected_of_all (input_values : gmap string string)
    (found : list (string * Z)) :
  (∀ i, i < 3 → ∃ v, input_values !! Setup.device_key i = Some v ∧ v ≠ "") →
  Setup.selected_of input_values found = take 3 found.
Proof.
  intros Hall. unfold Setup.selected_of.
  assert (∀ i, i < 3 → truthy (input_values !! Setup.device_key i) = true)
    as Htrue by (intros i Hi; apply truthy_spec, Hall, Hi).
  destruct found as [|a [|b [|c rest]]]; simpl; [done|..];
    rewrite ?(Htrue 0), ?(Htrue 1), ?(Htrue 2) by lia; done.
Qed.

(** C9. A submission in which the checkbox of each of the first three
    candidates holds the string "false", which is what a user who has
    unticked every checkbox submits, is taken for a selection of all of
    them: with a candidate discovered, the handler stores the first three
    candidates as the selection, goes to the pairing phase and asks to pair
    them, where the claim asks for a terminal error.  The test of the loop
    is the truth value of the submitted string, and "false" is not the
    empty string. *)
Theorem unticked_submission_goes_to_pairing
    (env : Setup.environment) (input_values : gmap string string)
    (st : Setup.session) :
  Setup._setup_phase st = Setup.selection →
  Setup._discovered_devices st ≠ [] →
  (∀ i, i < 3 → input_values !! Setup.device_key i = Some "false") →
  let selected := take 3 (Setup._discovered_devices st) in
  let run := Setup.setup_handler env (Setup.UserDataResponse input_values) st in
  run = (Ret (Setup.RequestUserConfirmation (length selected) selected),
         Setup.with_phase Setup.pairing (Setup.with_selected selected st))
  ∧ Setup._setup_phase run.2 = Setup.pairing
  ∧ Setup._selected_devices run.2 = selected
  ∧ selected ≠ [].
Proof.
  intros Hphase Hfound Hfalse selected run. subst selected run.
  unfold Setup.setup_handler, Setup._handle_user_data_response. rewrite Hphase.
  unfold Setup._handle_device_selection.
  rewrite selected_of_all by (intros i Hi; exists "false"; by rewrite Hfalse).
  destruct (Setup._discovered_devices st) as [|first rest]; [done|].
  by destruct rest as [|? [|? ?]].
Qed.

(** Three candidates, and the three checkboxes submitted as "false": the
    handler asks to pair the three candidates. *)
Lemma unticked_submission_goes_to_pairing_witness :
  Setup.setup_handler (pairing_env [] [])
    (Setup.UserDataResponse
       {[ "device_0" := "false"; "device_1" := "false"; "device_2" := "false" ]})
    selection_session
  = (Ret (Setup.RequestUserConfirmation 3 three_candidates),
     Setup.with_phase Setup.pairing
       (Setup.with_selected three_candidates selection_session)).
Proof.
  pose proof (unticked_submission_goes_to_pairing (pairing_env [] [])
                {[ "device_0" := "false"; "device_1" := "false";
                   "device_2" := "false" ]} selection_session eq_refl)
    as Hrun.
  destruct Hrun as [Hrun _]; [done | | exact Hrun].
  intros [|[|[|i]]] Hi; [by vm_compute..|lia].
Defined.

(** ** ALL_ON reaches every device *)

Section FleetCalls.
Import Remote.
Context (the_client : client).

Lemma dict_get_elem {V : Type} (k : string) (v : V) (d : list (string * V)) :
  NoDup d.*1 → (k, v) ∈ d → dict_get k d = Some v.
Proof.
  induction d as [|[k' v'] d IH]; [by intros _ ?%elem_of_nil|].
  rewrite fmap_cons, NoDup_cons, elem_of_cons. simpl. intros [Hk' Hd] [[= <- <-]|Hin].
  - by rewrite bool_decide_eq_true_2.
  - rewrite bool_decide_eq_false_2; [by apply IH|].
    intros ->. apply Hk'. apply list_elem_of_fmap. by exists (k, v).
Qed.

Lemma truthy_has_key (s : option string) : truthy s = true → has_key s = true.
Proof. by destruct s. Qed.

(** Turning one device on calls [turn_on] once, whatever the call gives. *)
Lemma execute_turn_on_calls devices device_id device_info w :
  dict_get device_id devices = Some device_info →
  truthy (Config.ip_address device_info) = true →
  truthy (Config.auth_token device_info) = true →
  calls (_execute_device_action_safe the_client devices device_id "turn_on" w).2
  = calls w ++ [TurnOn (device_of device_info)].
Proof.
  intros Hget Hip Htoken. unfold _execute_device_action_safe, try_except.
  rewrite Hget. unfold Config.nonempty. rewrite (truthy_has_key _ Hip), Hip, Htoken.
  simpl. unfold mbind, M_bind, ask.
  destruct (answer the_client (calls w) (TurnOn (device_of device_info)))
    as [[|]|]; reflexivity.
Qed.

Lemma gather_turn_on_calls devices (batch : Config.devices) w :
  NoDup devices.*1 → batch ⊆ devices →
  Forall (λ device, truthy (Config.ip_address device.2) = true
                    ∧ truthy (Config.auth_token device.2) = true) batch →
  calls (gather ((λ device : string * Config.device_config,
                    _execute_device_action_safe the_client devices device.1 "turn_on")
                   <$> batch) w).2
  = calls w ++ ((λ device, TurnOn (device_of device.2)) <$> batch).
Proof.
  intros Hids Hsub Hcred. revert w.
  induction Hcred as [|[device_id device_info] batch [Hip Htoken] _ IH]; intros w.
  { simpl. by rewrite app_nil_r. }
  simpl.
  pose proof (execute_turn_on_calls devices device_id device_info w) as Hcalls.
  destruct (_execute_device_action_safe _ _ _ _ w) as [result w1].
  assert (batch ⊆ devices) as Hbatch by set_solver.
  specialize (IH Hbatch w1).
  destruct (gather _ w1) as [results w2]. simpl in *.
  rewrite IH, Hcalls, <- (assoc_L (++)); [done|apply dict_get_elem; set_solver|done..].
Qed.

End FleetCalls.

(** The calls that ALL_ON makes are one [turn_on] for each stored device,
    in the order of the devices, whatever any of the devices answers or
    raises, when the device ids are distinct and every device is stored
    with an address and a token. *)
Theorem all_on_calls_every_device
    (the_client : Remote.client) (devices : Config.devices) (now : Q)
    (w : Remote.world) :
  devices ≠ [] → NoDup devices.*1 →
  Forall (λ device, truthy (Config.ip_address device.2) = true
                    ∧ truthy (Config.auth_token device.2) = true) devices →
  Remote.calls (Remote._execute_nanoleaf_command the_client devices "ALL_ON" now w).2
  = Remote.calls w
    ++ ((λ device, Remote.TurnOn (Remote.device_of device.2)) <$> devices).
Proof.
  intros Hne Hids Hcred.
  rewrite execute_nanoleaf_command_global by done.
  rewrite (execute_global_command_known the_client devices "ALL_ON" "turn_on")
    by done.
  simpl. by apply gather_turn_on_calls.
Qed.

Lemma all_on_calls_every_device_witness :
  Remote.calls
    (Remote._execute_nanoleaf_command second_device_fails three_devices "ALL_ON"
       1000 world_init).2
  = Remote.calls world_init
    ++ ((λ device, Remote.TurnOn (Remote.device_of device.2)) <$> three_devices).
Proof.
  apply (all_on_calls_every_device second_device_fails three_devices 1000 world_init).
  - done.
  - apply (bool_decide_unpack _). vm_compute. exact I.
  - unfold three_devices. repeat constructor.
Defined.
